(** * Lab1.py: inspection of one .mp3/.wav file (duration and tags)

    A shallow embedding of [src/Lab_1/Lab1.py].  The program is glue around
    three collaborators ([os.path], pydub's [AudioSegment.from_file] and
    mutagen's [File]); they are taken as an environment record, and every
    call the program makes to them, together with every [print], is written
    to an event log, so that statements of the form "stage X is not invoked"
    are statements about that log.

    Conventions.
    - A Python [str] is a [string] holding its UTF-8 bytes.  The separators
      and the extension dot are ASCII, so index arithmetic on bytes cuts a
      path exactly where Python cuts it on code points.
    - [PyStr.lower] lower-cases the ASCII letters only.  It is [str.lower]
      on ASCII strings; on other strings [str.lower] also maps the letters
      outside ASCII, so the two differ there.  No character outside ASCII
      lower-cases to one of [m p 3 w a v], so membership of the lower-cased
      extension in [SUPPORTED_EXTS] is the same for both; statements that
      need more than that carry the hypothesis that the path is ASCII.
    - [len(audio)] is a whole number of milliseconds; the float
      [len(audio) / 1000.0] is represented by that number, and [format_3f]
      gives the digits Python prints for lengths below [2^52] ms.  Above
      that bound only the shape of the printed number (whole part, dot,
      three digits) is the code's, not every digit. *)

From Stdlib Require Import String Ascii DecimalString DecimalPos DecimalN.
From stdpp Require Import gmap strings list fin_maps sorting.

Open Scope string_scope.
Open Scope Z_scope.

Set Warnings "-register-all".
Set Warnings "-clear-no-such-hyp".

(** ** Python string primitives *)

Module PyStr.

(** [c.lower()] on one byte: only [A]..[Z] move. *)
Definition lower_ascii (c : ascii) : ascii :=
  let n := N_of_ascii c in
  if ((65 <=? n) && (n <=? 90))%N then ascii_of_N (n + 32) else c.

(** [s.lower()] for an ASCII [s]; on other strings only the ASCII letters
    are lower-cased, where [str.lower] maps further letters as well. *)
Fixpoint lower (s : string) : string :=
  match s with
  | EmptyString => EmptyString
  | String c s' => String (lower_ascii c) (lower s')
  end.

(** [s.lstrip(c)] for a one-character set. *)
Fixpoint lstrip (c : ascii) (s : string) : string :=
  match s with
  | EmptyString => EmptyString
  | String a s' => if decide (a = c) then lstrip c s' else s
  end.

(** Scan of [s.rfind(c)]: [i] is the index of the head of [s], [acc] the
    last hit so far. *)
Fixpoint rfind_from (c : ascii) (s : string) (i acc : Z) : Z :=
  match s with
  | EmptyString => acc
  | String a s' => rfind_from c s' (i + 1) (if decide (a = c) then i else acc)
  end.

(** [s.rfind(c)]: the highest index of [c] in [s], or [-1]. *)
Definition rfind (c : ascii) (s : string) : Z := rfind_from c s 0 (-1).

(** [s[:i]] and [s[i:]] for [0 <= i]. *)
Fixpoint take (n : nat) (s : string) : string :=
  match n, s with
  | S n', String a s' => String a (take n' s')
  | _, _ => EmptyString
  end.

Fixpoint drop (n : nat) (s : string) : string :=
  match n, s with
  | S n', String _ s' => drop n' s'
  | _, _ => s
  end.

(** [s[i:i+1]]: the one-character slice, empty past the end. *)
Definition slice1 (s : string) (i : Z) : string := take 1 (drop (Z.to_nat i) s).

(** [sep.join(l)] *)
Definition join (sep : string) (l : list string) : string := String.concat sep l.

(** [any(P(c) for c in s)] *)
Fixpoint any (P : ascii → bool) (s : string) : bool :=
  match s with
  | EmptyString => false
  | String a s' => P a || any P s'
  end.

End PyStr.

(** ** [os.path.splitext] *)

Module OsPath.
Import PyStr.

(** The [while] loop of [genericpath._splitext]: looks for a character
    other than [extsep] in [p[filenameIndex:dotIndex]]; [n] bounds the
    iterations by [dotIndex - filenameIndex]. *)
Fixpoint has_name (p : string) (extsep : ascii) (n : nat) (filenameIndex : Z) : bool :=
  match n with
  | O => false
  | S n' =>
      if decide (slice1 p filenameIndex ≠ String extsep EmptyString) then true
      else has_name p extsep n' (filenameIndex + 1)
  end.

(** [genericpath._splitext(p, sep, altsep, extsep)] *)
Definition _splitext (p : string) (sep : ascii) (altsep : option ascii) (extsep : ascii)
  : string * string :=
  let sepIndex := rfind sep p in
  let sepIndex :=
    match altsep with
    | Some a => Z.max sepIndex (rfind a p)
    | None => sepIndex
    end in
  let dotIndex := rfind extsep p in
  if (sepIndex <? dotIndex) &&
     has_name p extsep (Z.to_nat (dotIndex - (sepIndex + 1))) (sepIndex + 1)
  then (take (Z.to_nat dotIndex) p, drop (Z.to_nat dotIndex) p)
  else (p, EmptyString).

(** The two flavours of [os.path]. *)
Inductive flavour := Posix | NT.

Definition splitext (os : flavour) (p : string) : string * string :=
  match os with
  | Posix => _splitext p "/" None "."
  | NT => _splitext p "\" (Some "/"%char) "."
  end.

(** The characters [splitext] treats as separators. *)
Definition is_sep (os : flavour) (c : ascii) : bool :=
  match os with
  | Posix => bool_decide (c = "/"%char)
  | NT => bool_decide (c = "\"%char) || bool_decide (c = "/"%char)
  end.

(** [sepIndex] of [_splitext], as [splitext] computes it for a flavour. *)
Definition sep_index (os : flavour) (p : string) : Z :=
  match os with
  | Posix => rfind "/" p
  | NT => Z.max (rfind "\" p) (rfind "/" p)
  end.

Definition is_dot (c : ascii) : bool := bool_decide (c = "."%char).

(** A stem names a file when its last path component holds a character
    other than the dot: [c] below, with no separator from [c] on. *)
Definition has_basename (os : flavour) (stem : string) : Prop :=
  ∃ a c b, stem = a ++ String c b ∧
           is_dot c = false ∧ is_sep os c = false ∧ any (is_sep os) b = false.

(** The extension in the words of the specification: [e] is the extension
    of [path], without its leading dot, when [path] is a named stem, a dot
    and [e], and [e] holds neither a dot nor a separator. *)
Definition has_extension (os : flavour) (path e : string) : Prop :=
  ∃ stem, path = stem ++ "." ++ e ∧ has_basename os stem ∧
          any (fun c => is_dot c || is_sep os c) e = false.

End OsPath.

(** ** The extension classifier *)

Definition SUPPORTED_EXTS : gset string := {[ "mp3"; "wav" ]}.

(** [os.path.splitext(path)[1].lower().lstrip(".")] *)
Definition normalized_ext (os : OsPath.flavour) (path : string) : string :=
  PyStr.lstrip "." (PyStr.lower (OsPath.splitext os path).2).

Definition is_supported_media (os : OsPath.flavour) (path : string) : bool :=
  bool_decide (normalized_ext os path ∈ SUPPORTED_EXTS).

(** ** Exceptions *)

(** The classes the program tells apart: [except CouldntDecodeError] and
    [except Exception].  [SystemExiting] stands for the classes that derive
    from [BaseException] but not from [Exception] ([KeyboardInterrupt],
    [SystemExit], [GeneratorExit]). *)
Inductive exc_class :=
| CouldntDecodeError
| RuntimeError
| OtherException
| SystemExiting.

(** An exception object: its class and [str(e)]. *)
Record exc := Exc { exc_cls : exc_class; exc_str : string }.

Definition isinstance_Exception (e : exc) : bool :=
  match exc_cls e with
  | SystemExiting => false
  | _ => true
  end.

Definition isinstance_CouldntDecodeError (e : exc) : bool :=
  match exc_cls e with
  | CouldntDecodeError => true
  | _ => false
  end.

Inductive result (A : Type) :=
| Ok (a : A)
| Raise (e : exc).
Arguments Ok {A} a.
Arguments Raise {A} e.

(** ** Tag values *)

(** What the tag views hand out.  [PObj s r t] is any object that is neither
    a list nor a tuple: [s] is [str(v)], [r] is [repr(v)] and [t] is
    [getattr(v, "text", None)].  The Python string [abc] is
    [PObj "abc" "'abc'" None]. *)
Inductive pyobj :=
| PObj (str_ repr_ : string) (text : option pyobj)
| PList (xs : list pyobj)
| PTuple (xs : list pyobj).

(** [repr(v)]; a one-element tuple is written with a trailing comma. *)
Fixpoint py_repr (v : pyobj) : string :=
  match v with
  | PObj _ r _ => r
  | PList xs => "[" ++ PyStr.join ", " (map py_repr xs) ++ "]"
  | PTuple xs =>
      match xs with
      | [x] => "(" ++ py_repr x ++ ",)"
      | _ => "(" ++ PyStr.join ", " (map py_repr xs) ++ ")"
      end
  end.

(** [str(v)]; lists and tuples have no [__str__] of their own. *)
Definition py_str (v : pyobj) : string :=
  match v with
  | PObj s _ _ => s
  | _ => py_repr v
  end.

(** [getattr(v, "text", None)] *)
Definition getattr_text (v : pyobj) : option pyobj :=
  match v with
  | PObj _ _ t => t
  | _ => None
  end.

(** [", ".join(str(x) for x in xs)] *)
Definition join_strs (xs : list pyobj) : string :=
  PyStr.join ", " (map py_str xs).

(** ** Collaborators *)

(** A tag container: its truth value and what [items()] gives. *)
Record pytags := PyTags {
  tags_bool : bool;
  tags_items : result (list (string * pyobj))
}.

(** What [MutagenFile] returns when it is not [None]; [tags] is
    [getattr(mf, "tags", None)]. *)
Record pyfile := PyFile { tags : option pytags }.

Record Env := {
  os_path : OsPath.flavour;
  (** [os.path.isfile] *)
  isfile : string → bool;
  (** [AudioSegment]; [None] when pydub could not be imported.  The function
      is [len(AudioSegment.from_file(path, format=ext))], in milliseconds. *)
  AudioSegment : option (string → string → result N);
  (** [MutagenFile]; [None] when mutagen could not be imported.  The flag is
      [easy]. *)
  MutagenFile : option (string → bool → result (option pyfile))
}.

(** ** Effects: an event log and exceptions *)

Inductive event :=
| Print (line : string)
| Call_isfile (path : string)
| Call_is_supported_media (path : string)
| Call_get_duration_seconds (path : string)
| Call_get_metadata (path : string)
| Call_from_file (path format : string)
| Call_MutagenFile (path : string) (easy : bool).

(** A computation: what it logged, and how it ended. *)
Definition M (A : Type) : Type := list event * result A.

Definition ret {A} (a : A) : M A := ([], Ok a).
Definition raise {A} (e : exc) : M A := ([], Raise e).
Definition tell (ev : event) : M unit := ([ev], Ok tt).
Definition lift {A} (r : result A) : M A := ([], r).

Definition bind {A B} (m : M A) (k : A → M B) : M B :=
  match m with
  | (l, Ok a) => let '(l', r) := k a in ((l ++ l')%list, r)
  | (l, Raise e) => (l, Raise e)
  end.

(** [try: x = body / except C as e: handler], followed by [k x]; the
    handler and [k] run outside the [try]. *)
Definition try_except {A B} (body : M A) (C : exc → bool)
    (handler : exc → M B) (k : A → M B) : M B :=
  match body with
  | (l, Ok a) => let '(l', r) := k a in ((l ++ l')%list, r)
  | (l, Raise e) =>
      if C e then let '(l', r) := handler e in ((l ++ l')%list, r)
      else (l, Raise e)
  end.

Notation "'do' x <- m ;; k" := (bind m (fun x => k))
  (at level 10, x name, m at level 99, k at level 200).
Notation "'run' m ;; k" := (bind m (fun _ => k))
  (at level 10, m at level 99, k at level 200).

Definition print (line : string) : M unit := tell (Print line).

(** [stdout]: the printed lines, one per [print]. *)
Definition stdout (l : list event) : list string :=
  omap (fun ev => match ev with Print s => Some s | _ => None end) l.

(** ** The program *)

(** The last decimal digit of [n]. *)
Definition digit (n : N) : string :=
  NilZero.string_of_uint (N.to_uint (n mod 10)).

(** [f"{duration:.3f}"] for [duration = ms / 1000.0]: the whole seconds, a
    dot and the three digits of the remaining milliseconds.  For
    [ms < 2^52] the double nearest to [ms / 1000] is closer to it than half
    a thousandth, so rounding that double to three decimals gives
    [ms / 1000] back and these are the digits Python prints.  From about
    [2^52] ms on the double is coarser than a thousandth and Python's digits
    can differ; the shape (whole part, dot, three digits) stays. *)
Definition format_3f (ms : N) : string :=
  let frac := (ms mod 1000)%N in
  NilZero.string_of_uint (N.to_uint (ms / 1000)) ++ "." ++
  digit (frac / 100) ++ digit (frac / 10) ++ digit frac.

(** Lexicographic order of strings, the order of [sorted]. *)
Definition string_le (a b : string) : Prop := String.leb a b = true.

Global Instance string_le_dec a b : Decision (string_le a b).
Proof. unfold string_le. apply _. Defined.

(** [sorted(md.keys())] *)
Definition sorted_keys (md : gmap string string) : list string :=
  merge_sort string_le (map_to_list md).*1.

(** The loop body of the simplified view: the value stored under a key. *)
Definition easy_value (v : pyobj) : string :=
  match v with
  | PList xs | PTuple xs => join_strs xs
  | _ => py_str v
  end.

(** The loop body of the full view. *)
Definition full_value (v : pyobj) : string :=
  match getattr_text v with
  | Some (PList xs) | Some (PTuple xs) => join_strs xs
  | _ => py_str v
  end.

(** [for k, v in items: tags_out[k] = value(v)] *)
Definition store_items (value : pyobj → string) (items : list (string * pyobj))
    (tags_out : gmap string string) : gmap string string :=
  foldl (fun acc kv => <[kv.1 := value kv.2]> acc) tags_out items.

(** [mf is not None and getattr(mf, "tags", None)], as the tag container
    when the condition is true. *)
Definition truthy_tags (mf : option pyfile) : option pytags :=
  match mf with
  | Some f =>
      match tags f with
      | Some t => if tags_bool t then Some t else None
      | None => None
      end
  | None => None
  end.

(** The simplified view: the block under [if mf_easy is not None and ...],
    starting from the empty [tags_out]. *)
Definition easy_tags (mf_easy : option pyfile) : M (gmap string string) :=
  match truthy_tags mf_easy with
  | Some t =>
      do items <- lift (tags_items t) ;;
      ret (store_items easy_value items ∅)
  | None => ret ∅
  end.

(** The full view: the block under [if mf_full is not None and ...]; a
    failing [items()] is replaced by [[]]. *)
Definition full_tags (mf_full : option pyfile) (tags_out : gmap string string)
    : M (gmap string string) :=
  match truthy_tags mf_full with
  | Some t =>
      try_except (lift (tags_items t)) isinstance_Exception
        (fun _ => ret (store_items full_value [] tags_out))
        (fun items => ret (store_items full_value items tags_out))
  | None => ret tags_out
  end.

(** [isinstance(v, (list, tuple))], with the elements. *)
Definition seq_elems (v : pyobj) : option (list pyobj) :=
  match v with
  | PList xs | PTuple xs => Some xs
  | PObj _ _ _ => None
  end.

Section Program.
Variable env : Env.

Definition get_duration_seconds (path : string) : M N :=
  run tell (Call_get_duration_seconds path) ;;
  match AudioSegment env with
  | None =>
      raise (Exc RuntimeError
               "Бібліотеку pydub не знайдено. Встановіть її: pip install pydub")
  | Some from_file =>
      let ext := normalized_ext (os_path env) path in
      try_except
        (run tell (Call_from_file path ext) ;; lift (from_file path ext))
        isinstance_CouldntDecodeError
        (fun e =>
           raise (Exc RuntimeError
                    ("Не вдалося декодувати файл через pydub/ffmpeg. " ++
                     "Переконайтесь, що FFmpeg встановлено та додано до PATH.")))
        (fun audio_len => ret audio_len)
  end.

Definition get_metadata (path : string) : M (gmap string string) :=
  run tell (Call_get_metadata path) ;;
  match MutagenFile env with
  | None =>
      raise (Exc RuntimeError
               "Бібліотеку mutagen не знайдено. Встановіть її: pip install mutagen")
  | Some mutagen_file =>
      do mf_easy <- (run tell (Call_MutagenFile path true) ;;
                     lift (mutagen_file path true)) ;;
      do tags_out <- easy_tags mf_easy ;;
      if decide (tags_out = ∅) then
        do mf_full <- (run tell (Call_MutagenFile path false) ;;
                       lift (mutagen_file path false)) ;;
        full_tags mf_full tags_out
      else ret tags_out
  end.

(** [f"  - {k}: {md[k]}"] *)
Definition tag_line (md : gmap string string) (k : string) : string :=
  "  - " ++ k ++ ": " ++ md !!! k.

(** The lines printed for a tag mapping. *)
Definition render (md : gmap string string) : list string :=
  if decide (md = ∅) then
    ["Метадані відсутні або не підтримуються для цього файла."]
  else
    "Метадані:" :: map (tag_line md) (sorted_keys md).

(** [for line in lines: print(line)] *)
Fixpoint print_all (lines : list string) : M unit :=
  match lines with
  | [] => ret tt
  | line :: rest => run print line ;; print_all rest
  end.

(** [main], from [path = args.path] on; the value is what [main] returns,
    which [raise SystemExit(main())] makes the exit code. *)
Definition main (path : string) : M Z :=
  do found <- (run tell (Call_isfile path) ;; ret (isfile env path)) ;;
  if negb found then
    run print ("Помилка: файл не знайдено — " ++ path) ;;
    ret 1
  else
    do supported <- (run tell (Call_is_supported_media path) ;;
                     ret (is_supported_media (os_path env) path)) ;;
    if negb supported then
      run print "Непідтримуваний формат. Дозволено лише .mp3 та .wav" ;;
      ret 2
    else
      run print ("Файл: " ++ path) ;;
      run print ("Формат: " ++ normalized_ext (os_path env) path) ;;
      try_except (get_duration_seconds path) isinstance_Exception
        (fun e =>
           run print ("Помилка при обчисленні тривалості: " ++ exc_str e) ;;
           ret 3)
        (fun duration =>
           run print ("Тривалість: " ++ format_3f duration ++ " c") ;;
           try_except (get_metadata path) isinstance_Exception
             (fun e =>
                run print ("Не вдалося прочитати метадані: " ++ exc_str e) ;;
                ret 0)
             (fun md =>
                run print_all (render md) ;;
                ret 0)).

End Program.

(** What [main] logs up to the duration stage, on a path that passes both
    checks. *)
Definition preamble (env : Env) (path : string) : list event :=
  [Call_isfile path; Call_is_supported_media path;
   Print ("Файл: " ++ path);
   Print ("Формат: " ++ normalized_ext (os_path env) path)].

(** The duration line. *)
Definition duration_line (ms : N) : event :=
  Print ("Тривалість: " ++ format_3f ms ++ " c").

(** What [get_metadata] logs when only the simplified view is consulted,
    and when both views are. *)
Definition calls_easy (path : string) : list event :=
  [Call_get_metadata path; Call_MutagenFile path true].

Definition calls_both (path : string) : list event :=
  [Call_get_metadata path; Call_MutagenFile path true; Call_MutagenFile path false].

(** The calls that belong to a stage after the existence check. *)
Definition is_stage_call (ev : event) : bool :=
  match ev with
  | Print _ | Call_isfile _ => false
  | _ => true
  end.

(** The calls of the duration stage. *)
Definition is_decode_call (ev : event) : bool :=
  match ev with
  | Call_get_duration_seconds _ | Call_from_file _ _ => true
  | _ => false
  end.

(** The character of a decimal digit. *)
Definition digit_char (d : N) : ascii := ascii_of_N (48 + d).

(** ** Sample environments *)

Module Examples.

(** The Python string [x] (without quotes or escapes) as a tag value. *)
Definition pystr (x : string) : pyobj := PObj x ("'" ++ x ++ "'") None.

Definition only (name : string) (p : string) : bool := bool_decide (p = name).

Definition tagged (items : list (string * pyobj)) : result (option pyfile) :=
  Ok (Some (PyFile (Some (PyTags true (Ok items))))).

(** [song.mp3]: three seconds, the simplified view has a title and two
    artists. *)
Definition env_song : Env := {|
  os_path := OsPath.Posix;
  isfile := only "song.mp3";
  AudioSegment := Some (fun _ _ => Ok 3000%N);
  MutagenFile := Some (fun _ (easy : bool) =>
    if easy then tagged [("title", PList [pystr "Test"]);
                         ("artist", PList [pystr "A"; pystr "B"])]
    else tagged [])
|}.

(** Neither optional library could be imported. *)
Definition env_bare : Env := {|
  os_path := OsPath.Posix;
  isfile := only "song.mp3";
  AudioSegment := None;
  MutagenFile := None
|}.

(** The file decodes, mutagen is missing. *)
Definition env_no_mutagen : Env := {|
  os_path := OsPath.Posix;
  isfile := only "song.mp3";
  AudioSegment := Some (fun _ _ => Ok 61007%N);
  MutagenFile := None
|}.

(** A directory in which every path names a file. *)
Definition env_notes : Env := {|
  os_path := OsPath.NT;
  isfile := fun _ => true;
  AudioSegment := Some (fun _ _ => Ok 1%N);
  MutagenFile := None
|}.

(** [KeyboardInterrupt] arrives while the file is decoded. *)
Definition env_interrupted_decode : Env := {|
  os_path := OsPath.Posix;
  isfile := only "song.mp3";
  AudioSegment := Some (fun _ _ => Raise (Exc SystemExiting ""));
  MutagenFile := None
|}.

(** The decoder fails with an error that is not [CouldntDecodeError]. *)
Definition env_decoder_missing : Env := {|
  os_path := OsPath.Posix;
  isfile := only "song.mp3";
  AudioSegment := Some (fun _ _ =>
    Raise (Exc OtherException "[Errno 2] No such file or directory: 'ffprobe'"));
  MutagenFile := None
|}.

(** No simplified tags; the full view holds a text frame, and a value that
    is itself a list. *)
Definition env_raw : Env := {|
  os_path := OsPath.Posix;
  isfile := only "song.mp3";
  AudioSegment := Some (fun _ _ => Ok 3000%N);
  MutagenFile := Some (fun _ (easy : bool) =>
    if easy then Ok (Some (PyFile None))
    else tagged [("TPE1", PObj "A/B" "TPE1(text=['A', 'B'])"
                            (Some (PList [pystr "A"; pystr "B"])));
                 ("k", PList [pystr "a"; pystr "b"])])
|}.

(** No simplified tags; [items()] of the full view fails with [e]. *)
Definition env_raw_items_fail (e : exc) : Env := {|
  os_path := OsPath.Posix;
  isfile := only "song.mp3";
  AudioSegment := Some (fun _ _ => Ok 3000%N);
  MutagenFile := Some (fun _ (easy : bool) =>
    if easy then Ok None
    else Ok (Some (PyFile (Some (PyTags true (Raise e))))))
|}.

End Examples.

(** ** Views of the log *)

(** The calls of a log, without what was printed. *)
Definition is_call (ev : event) : bool :=
  match ev with
  | Print _ => false
  | _ => true
  end.

Definition calls (log : list event) : list event :=
  filter (λ ev, is_call ev = true) log.

(** The calls [main] can make, in program order. *)
Definition call_order (env : Env) (path : string) : list event :=
  [Call_isfile path; Call_is_supported_media path;
   Call_get_duration_seconds path;
   Call_from_file path (normalized_ext (os_path env) path);
   Call_get_metadata path;
   Call_MutagenFile path true; Call_MutagenFile path false].

(** An upper-case ASCII letter. *)
Definition is_upper (c : ascii) : bool :=
  let n := N_of_ascii c in ((65 <=? n) && (n <=? 90))%N.

Global Instance event_eq_dec : EqDecision event.
Proof. solve_decision. Defined.

(** A view that offers no item: no file type was recognised, the file has
    no truthy [tags], or [items()] is empty. *)
Definition no_items (mf : option pyfile) : Prop :=
  truthy_tags mf = None ∨
  ∃ t, truthy_tags mf = Some t ∧ tags_items t = Ok [].

(** [items] are the items of the view [get_metadata] builds its result
    from, and [value] is the loop body it applies to them: the simplified
    view when it has items, the full view otherwise. *)
Definition consulted (mutagen_file : string → bool → result (option pyfile))
    (path : string) (items : list (string * pyobj)) (value : pyobj → string) : Prop :=
  (∃ mf_easy t,
     mutagen_file path true = Ok mf_easy ∧ truthy_tags mf_easy = Some t ∧
     tags_items t = Ok items ∧ items ≠ [] ∧ value = easy_value) ∨
  (∃ mf_easy mf_full t,
     mutagen_file path true = Ok mf_easy ∧ no_items mf_easy ∧
     mutagen_file path false = Ok mf_full ∧ truthy_tags mf_full = Some t ∧
     tags_items t = Ok items ∧ value = full_value).

(** ** Output lines *)

(** The line feed that [print] puts behind every text. *)
Definition LF : ascii := "010"%char.

Definition is_LF (c : ascii) : bool := bool_decide (c = LF).

(** What a sequence of [print] calls writes to the standard output. *)
Fixpoint written (printed : list string) : string :=
  match printed with
  | [] => EmptyString
  | s :: rest => s ++ String LF (written rest)
  end.

(** The lines of a text: the pieces that line feeds end, and the piece
    behind the last line feed when it is not empty. *)
Fixpoint lines_of (text : string) : list string :=
  match text with
  | EmptyString => []
  | String c rest =>
      if is_LF c then EmptyString :: lines_of rest
      else
        match lines_of rest with
        | [] => [String c EmptyString]
        | line :: others => String c line :: others
        end
  end.

(** No key and no value of the mapping holds a line feed. *)
Definition single_line_tags (md : gmap string string) : Prop :=
  map_Forall (λ k v, PyStr.any is_LF k = false ∧ PyStr.any is_LF v = false) md.

(** [s.isascii()] *)
Definition isascii (s : string) : bool :=
  negb (PyStr.any (λ c, (128 <=? N_of_ascii c)%N) s).

(** ** More sample environments *)

Module Samples.

(** The full view holds a lyrics frame of two lines; its [text] is a string,
    not a list, and [str(frame)] is that text. *)
Definition env_lyrics : Env := {|
  os_path := OsPath.Posix;
  isfile := fun _ => true;
  AudioSegment := Some (fun _ _ => Ok 1500%N);
  MutagenFile := Some (fun _ (easy : bool) =>
    if easy then Ok (Some (PyFile None))
    else Examples.tagged
           [("USLT", PObj ("la" ++ String LF "la") "USLT(text='la\nla')"
                       (Some (PObj ("la" ++ String LF "la") "'la\nla'" None)))])
|}.

(** The decoder fails with an error whose text has two lines. *)
Definition env_two_line_error : Env := {|
  os_path := OsPath.Posix;
  isfile := fun _ => true;
  AudioSegment := Some (fun _ _ =>
    Raise (Exc OtherException ("decoder failed" ++ String LF "see the log")));
  MutagenFile := None
|}.

(** A tagged WAV file: mutagen has no simplified variant for it, so the
    view asked for with [easy=True] hands out the frames themselves; the
    text of a frame prints its values with NUL between them. *)
Definition env_wav_frames : Env := {|
  os_path := OsPath.Posix;
  isfile := fun _ => true;
  AudioSegment := Some (fun _ _ => Ok 1500%N);
  MutagenFile := Some (fun _ _ =>
    Examples.tagged
      [("TPE1", PObj ("A" ++ String "000" "B") "TPE1(text=['A', 'B'])"
                  (Some (PList [Examples.pystr "A"; Examples.pystr "B"])))])
|}.

(** A file mutagen recognises, without tags in either view. *)
Definition env_untagged : Env := {|
  os_path := OsPath.Posix;
  isfile := fun _ => true;
  AudioSegment := Some (fun _ _ => Ok 1500%N);
  MutagenFile := Some (fun _ _ => Ok (Some (PyFile None)))
|}.

(** Three files whose tags cannot be read: [easy.mp3] fails when the
    simplified view is opened, [items.mp3] when its items are listed,
    [full.mp3] when the full view is opened. *)
Definition failing_views (path : string) (easy : bool) : result (option pyfile) :=
  let e := Exc OtherException "bad header" in
  if bool_decide (path = "easy.mp3") then Raise e
  else if bool_decide (path = "items.mp3") then
    Ok (Some (PyFile (Some (PyTags true (Raise e)))))
  else if easy then Ok None
  else Raise e.

Definition env_failing_views : Env := {|
  os_path := OsPath.Posix;
  isfile := fun _ => true;
  AudioSegment := Some (fun _ _ => Ok 1500%N);
  MutagenFile := Some failing_views
|}.

(** The simplified view lists a title twice and a track number. *)
Definition env_repeated_key : Env := {|
  os_path := OsPath.Posix;
  isfile := fun _ => true;
  AudioSegment := Some (fun _ _ => Ok 1500%N);
  MutagenFile := Some (fun _ _ =>
    Examples.tagged [("title", PList [Examples.pystr "Old"]);
                     ("track", PObj "7" "7" None);
                     ("title", PList [Examples.pystr "New"])])
|}.

End Samples.

(** * Facts about the string primitives *)

Module PyStrFacts.
Import PyStr.

#[local] Arguments String.append !_ _ / : simpl nomatch.

Lemma get_app_l (a b : string) (k : nat) :
  (k < String.length a)%nat → String.get k (a ++ b) = String.get k a.
Proof.
  revert k. induction a as [|x a IH]; intros k Hk; simpl in *; [lia|].
  destruct k; [done|]. apply IH. lia.
Qed.

Lemma get_app_r (a b : string) (k : nat) :
  String.get (String.length a + k) (a ++ b) = String.get k b.
Proof. induction a as [|x a IH]; simpl; [done|apply IH]. Qed.

Lemma get_Some_lt (s : string) (k : nat) (c : ascii) :
  String.get k s = Some c → (k < String.length s)%nat.
Proof.
  revert k. induction s as [|x s IH]; intros k H; simpl in *; [destruct k; done|].
  destruct k; [lia|]. apply IH in H. lia.
Qed.

Lemma get_lt_Some (s : string) (k : nat) :
  (k < String.length s)%nat → ∃ c, String.get k s = Some c.
Proof.
  revert k. induction s as [|x s IH]; intros k H; simpl in *; [lia|].
  destruct k; [eauto|]. apply IH. lia.
Qed.

Lemma length_app (a b : string) :
  String.length (a ++ b) = (String.length a + String.length b)%nat.
Proof. induction a as [|x a IH]; simpl; [done|by rewrite IH]. Qed.

Lemma app_assoc (a b c : string) : (a ++ b) ++ c = a ++ (b ++ c).
Proof. induction a as [|x a IH]; simpl; [done|by rewrite IH]. Qed.

Lemma take_drop (n : nat) (s : string) : take n s ++ drop n s = s.
Proof.
  revert n. induction s as [|x s IH]; intros [|n]; simpl; try done.
  by rewrite IH.
Qed.

Lemma length_take (n : nat) (s : string) :
  (n ≤ String.length s)%nat → String.length (take n s) = n.
Proof.
  revert n. induction s as [|x s IH]; intros [|n] H; simpl in *; try done; try lia.
  rewrite IH; [done|lia].
Qed.

Lemma take_app_length (a b : string) : take (String.length a) (a ++ b) = a.
Proof. induction a as [|x a IH]; simpl; [by destruct b|by rewrite IH]. Qed.

Lemma drop_app_length (a b : string) : drop (String.length a) (a ++ b) = b.
Proof. induction a as [|x a IH]; simpl; [by destruct b|done]. Qed.

Lemma get_drop (n k : nat) (s : string) :
  String.get k (drop n s) = String.get (n + k) s.
Proof.
  revert n. induction s as [|x s IH]; intros [|n]; simpl; done.
Qed.

Lemma get_take (n k : nat) (s : string) :
  (k < n)%nat → String.get k (take n s) = String.get k s.
Proof.
  revert n k. induction s as [|x s IH]; intros [|n] k H; simpl; try done; [lia|].
  destruct k; [done|]. apply IH. lia.
Qed.

Lemma drop_get (n : nat) (s : string) (c : ascii) :
  String.get n s = Some c → drop n s = String c (drop (S n) s).
Proof.
  revert n. induction s as [|x s IH]; intros [|n] H; simpl in *; try done.
  - by inversion H.
  - rewrite (IH _ H). done.
Qed.

Lemma any_get (P : ascii → bool) (s : string) :
  any P s = false ↔ ∀ k c, String.get k s = Some c → P c = false.
Proof.
  induction s as [|x s IH]; simpl.
  - split; [intros _ [|k] c; done|done].
  - rewrite orb_false_iff, IH. split.
    + intros [Hx Hs] [|k] c H; [by inversion H; subst|eauto].
    + intros H. split; [apply (H 0%nat); done|]. intros k c. apply (H (S k)).
Qed.

Lemma any_app (P : ascii → bool) (a b : string) :
  any P (a ++ b) = any P a || any P b.
Proof. induction a as [|x a IH]; simpl; [done|]. by rewrite IH, orb_assoc. Qed.

(** [rfind_from] returns the accumulator or the index of an occurrence. *)
Lemma rfind_from_witness (c : ascii) (s : string) (i acc : Z) :
  rfind_from c s i acc = acc ∨
  ∃ k, rfind_from c s i acc = i + Z.of_nat k ∧ String.get k s = Some c.
Proof.
  revert i acc. induction s as [|x s IH]; intros i acc; simpl; [by left|].
  destruct (IH (i + 1) (if decide (x = c) then i else acc)) as [->|(k & -> & Hk)].
  - destruct (decide (x = c)) as [->|]; [|by left].
    right. exists 0%nat. split; [lia|done].
  - right. exists (S k). split; [lia|done].
Qed.

(** ... and no occurrence lies to its right. *)
Lemma rfind_from_ub (c : ascii) (s : string) (i acc : Z) (k : nat) :
  String.get k s = Some c → i + Z.of_nat k ≤ rfind_from c s i acc.
Proof.
  revert i acc k. induction s as [|x s IH]; intros i acc k H; simpl in *.
  - by destruct k.
  - destruct k as [|k].
    + inversion H; subst. rewrite decide_True by done.
      destruct (rfind_from_witness c s (i + 1) i) as [->|(k & -> & _)]; lia.
    + specialize (IH (i + 1) (if decide (x = c) then i else acc) k H). lia.
Qed.

Lemma rfind_witness (c : ascii) (s : string) :
  rfind c s = -1 ∨ ∃ k, rfind c s = Z.of_nat k ∧ String.get k s = Some c.
Proof.
  destruct (rfind_from_witness c s 0 (-1)) as [H|(k & H & Hk)]; [by left|].
  right. exists k. split; [unfold rfind; lia|done].
Qed.

Lemma rfind_ub (c : ascii) (s : string) (k : nat) :
  String.get k s = Some c → Z.of_nat k ≤ rfind c s.
Proof. intros H. apply (rfind_from_ub c s 0 (-1)) in H. unfold rfind. lia. Qed.

Lemma slice1_get (s : string) (i : Z) :
  slice1 s i = match String.get (Z.to_nat i) s with
               | Some a => String a EmptyString
               | None => EmptyString
               end.
Proof.
  unfold slice1. generalize (Z.to_nat i) as n. intros n. revert n.
  induction s as [|x s IH]; intros [|n]; simpl; try done. apply IH.
Qed.

End PyStrFacts.

(** * Output lines *)

Module LineFacts.
Import PyStr.

#[local] Arguments String.append !_ _ / : simpl nomatch.

(** A text without line feed, its line feed and the rest: one line and the
    lines of the rest. *)
Lemma lines_of_app_LF (s t : string) :
  any is_LF s = false → lines_of (s ++ String LF t) = s :: lines_of t.
Proof.
  induction s as [|c s IH]; simpl; intros H; [done|].
  apply orb_false_iff in H as [Hc Hs]. rewrite Hc, (IH Hs). done.
Qed.

(** Texts without line feed are printed one to a line. *)
Lemma lines_of_written (printed : list string) :
  Forall (λ s, any is_LF s = false) printed → lines_of (written printed) = printed.
Proof.
  induction 1 as [|s rest Hs _ IH]; simpl; [done|].
  by rewrite lines_of_app_LF, IH.
Qed.

Lemma tag_line_single_line (md : gmap string string) (k v : string) :
  md !! k = Some v → any is_LF k = false → any is_LF v = false →
  any is_LF (tag_line md k) = false.
Proof.
  intros Hk Hk' Hv. unfold tag_line. rewrite (lookup_total_correct md k v Hk).
  rewrite !PyStrFacts.any_app, Hk', Hv. done.
Qed.

End LineFacts.

(** * Facts about [os.path.splitext] *)

Module OsPathFacts.
Import PyStr OsPath PyStrFacts.

#[local] Arguments String.append !_ _ / : simpl nomatch.

Lemma get_app_inv (a b : string) (k : nat) (x : ascii) :
  String.get k (a ++ b) = Some x →
  ((k < String.length a)%nat ∧ String.get k a = Some x) ∨
  ((String.length a ≤ k)%nat ∧ String.get (k - String.length a) b = Some x).
Proof.
  intros H. destruct (decide (k < String.length a)%nat) as [Hk|Hk].
  - left. split; [done|]. by rewrite <- (get_app_l a b k Hk).
  - right. split; [lia|].
    replace k with (String.length a + (k - String.length a))%nat in H by lia.
    by rewrite get_app_r in H.
Qed.

Lemma splitext_eq (os : flavour) (p : string) :
  splitext os p =
    if (sep_index os p <? rfind "." p) &&
       has_name p "." (Z.to_nat (rfind "." p - (sep_index os p + 1)))
         (sep_index os p + 1)
    then (take (Z.to_nat (rfind "." p)) p, drop (Z.to_nat (rfind "." p)) p)
    else (p, EmptyString).
Proof. by destruct os. Qed.

Lemma is_sep_dot (os : flavour) : is_sep os "." = false.
Proof. by destruct os. Qed.

(** No separator lies to the right of [sep_index]. *)
Lemma sep_index_ub (os : flavour) (p : string) (k : nat) (x : ascii) :
  String.get k p = Some x → is_sep os x = true → Z.of_nat k ≤ sep_index os p.
Proof.
  intros Hk Hx. destruct os; simpl in *.
  - apply bool_decide_eq_true in Hx as ->. by apply rfind_ub.
  - apply orb_true_iff in Hx as [Hx|Hx]; apply bool_decide_eq_true in Hx as ->.
    + apply (rfind_ub _ _ _) in Hk. lia.
    + apply (rfind_ub _ _ _) in Hk. lia.
Qed.

(** [sep_index] is [-1] or the index of a separator. *)
Lemma sep_index_witness (os : flavour) (p : string) :
  sep_index os p = -1 ∨
  ∃ k x, sep_index os p = Z.of_nat k ∧ String.get k p = Some x ∧ is_sep os x = true.
Proof.
  destruct os; simpl.
  - destruct (rfind_witness "/" p) as [->|(k & -> & Hk)]; [by left|].
    right. by exists k, "/"%char.
  - destruct (rfind_witness "\" p) as [H1|(k1 & H1 & Hk1)];
      destruct (rfind_witness "/" p) as [H2|(k2 & H2 & Hk2)];
      rewrite H1, H2.
    + by left.
    + right. exists k2, "/"%char. split; [lia|done].
    + right. exists k1, "\"%char. split; [lia|done].
    + right. destruct (Z.max_spec (Z.of_nat k1) (Z.of_nat k2)) as [[_ ->]|[_ ->]].
      * by exists k2, "/"%char.
      * by exists k1, "\"%char.
Qed.

Lemma has_name_spec (p : string) (e : ascii) (n i : nat) :
  has_name p e n (Z.of_nat i) = true ↔
  ∃ j, (i ≤ j < i + n)%nat ∧ String.get j p ≠ Some e.
Proof.
  revert i. induction n as [|n IH]; intros i; simpl.
  - split; [done|]. intros (j & ? & _). lia.
  - rewrite slice1_get, Nat2Z.id.
    replace (Z.of_nat i + 1) with (Z.of_nat (S i)) by lia.
    destruct (decide _) as [Hne|Heq].
    + split; [|done]. intros _. exists i. split; [lia|].
      intros Hg. rewrite Hg in Hne. done.
    + rewrite IH. apply dec_stable in Heq.
      assert (String.get i p = Some e) as Hi.
      { destruct (String.get i p); [by inversion Heq|done]. }
      split; intros (j & Hj & Hg); exists j; (split; [|done]); [lia|].
      destruct (decide (j = i)) as [->|]; [done|lia].
Qed.

(** From the code to the specification: a non-empty second component is a
    dot followed by the extension. *)
Lemma splitext_ext_inv (os : flavour) (p : string) :
  (splitext os p).2 ≠ EmptyString →
  ∃ e, splitext os p = (take (String.length p - S (String.length e)) p, String "." e) ∧
       has_extension os p e.
Proof.
  rewrite splitext_eq. destruct (_ && _) eqn:Hc; [|done]. intros _.
  apply andb_true_iff in Hc as [Hlt Hn]. apply Z.ltb_lt in Hlt.
  pose proof (sep_index_witness os p) as Hsw.
  assert (-1 ≤ sep_index os p) as Hs by (destruct Hsw as [->|(k & x & -> & _)]; lia).
  destruct (rfind_witness "." p) as [Hd|(kd & Hd & Hkd)]; [lia|].
  rewrite Hd in *. rewrite Nat2Z.id.
  replace (sep_index os p + 1) with (Z.of_nat (Z.to_nat (sep_index os p + 1))) in Hn by lia.
  apply has_name_spec in Hn as (j & Hj & Hgj).
  pose proof (get_Some_lt _ _ _ Hkd) as Hkdlt.
  destruct (get_lt_Some p j) as [c Hc]; [lia|].
  set (e := drop (S kd) p). set (root := take kd p).
  assert (drop kd p = String "." e) as Hext by (by apply drop_get).
  assert (String.length e = (String.length p - S kd)%nat) as Hlen.
  { pose proof (length_app root (drop kd p)) as HL.
    unfold root in HL. rewrite take_drop, length_take, Hext in HL by lia.
    simpl in HL. lia. }
  exists e. split.
  { rewrite Hext. do 2 f_equal. lia. }
  exists root. split; [|split].
  - simpl. rewrite <- Hext. unfold root. by rewrite take_drop.
  - assert (String.get j root = Some c) as Hjr.
    { unfold root. rewrite get_take by lia. done. }
    exists (take j root), c, (drop (S j) root). repeat split.
    + rewrite <- (drop_get _ _ _ Hjr). by rewrite take_drop.
    + apply bool_decide_eq_false. intros ->. done.
    + destruct (is_sep os c) eqn:Hsep; [|done].
      apply (sep_index_ub os p j c Hc) in Hsep. lia.
    + apply any_get. intros k x Hk. rewrite get_drop in Hk.
      pose proof (get_Some_lt _ _ _ Hk) as Hklt.
      unfold root in Hk, Hklt. rewrite length_take in Hklt by lia.
      rewrite get_take in Hk by lia.
      destruct (is_sep os x) eqn:Hsep; [|done].
      apply (sep_index_ub os p _ x Hk) in Hsep. lia.
  - apply any_get. intros k x Hk. unfold e in Hk. rewrite get_drop in Hk.
    apply orb_false_iff. split.
    + apply bool_decide_eq_false. intros ->. apply rfind_ub in Hk. lia.
    + destruct (is_sep os x) eqn:Hsep; [|done].
      apply (sep_index_ub os p _ x Hk) in Hsep. lia.
Qed.

(** From the specification to the code. *)
Lemma splitext_has_extension (os : flavour) (stem e : string) :
  has_basename os stem →
  any (fun c => is_dot c || is_sep os c) e = false →
  splitext os (stem ++ "." ++ e) = (stem, String "." e).
Proof.
  intros (a & c & b & -> & Hcd & Hcs & Hb) He.
  set (stem := a ++ String c b). set (p := stem ++ "." ++ e).
  assert (p = stem ++ String "." e) as Hp by done.
  pose proof (proj1 (any_get _ _) He) as He'.
  pose proof (proj1 (any_get _ _) Hb) as Hb'.
  assert (String.get (String.length stem) p = Some "."%char) as Hdot.
  { rewrite Hp. rewrite <- (Nat.add_0_r (String.length stem)). by rewrite get_app_r. }
  assert (rfind "." p = Z.of_nat (String.length stem)) as Hd.
  { pose proof (rfind_ub _ _ _ Hdot) as Hub.
    destruct (rfind_witness "." p) as [Hw|(kd & Hw & Hkd)]; [lia|].
    rewrite Hw in *. f_equal.
    rewrite Hp in Hkd. apply get_app_inv in Hkd as [[? _]|[? Hkd]]; [lia|].
    destruct (kd - String.length stem)%nat as [|k'] eqn:Hk'; [lia|].
    simpl in Hkd. apply He' in Hkd. apply orb_false_iff in Hkd as [Hkd _].
    by apply bool_decide_eq_false in Hkd. }
  assert (sep_index os p < Z.of_nat (String.length a)) as Hs.
  { destruct (sep_index_witness os p) as [->|(k & x & -> & Hk & Hx)]; [lia|].
    apply Nat2Z.inj_lt. destruct (decide (k < String.length a)%nat); [done|].
    exfalso. rewrite Hp in Hk.
    apply get_app_inv in Hk as [[Hlt Hk]|[Hge Hk]].
    - unfold stem in Hk. apply get_app_inv in Hk as [[? _]|[? Hk]]; [lia|].
      destruct (k - String.length a)%nat as [|k']; simpl in Hk.
      + inversion Hk; subst. congruence.
      + apply Hb' in Hk. congruence.
    - destruct (k - String.length stem)%nat as [|k']; simpl in Hk.
      + inversion Hk; subst. rewrite is_sep_dot in Hx. done.
      + apply He' in Hk. apply orb_false_iff in Hk as [_ Hk]. congruence. }
  assert (String.length stem = (String.length a + S (String.length b))%nat) as Hlen.
  { unfold stem. by rewrite length_app. }
  assert (-1 ≤ sep_index os p) as Hs1.
  { destruct (sep_index_witness os p) as [->|(k & x & -> & _)]; lia. }
  rewrite splitext_eq. fold p. rewrite Hd, Nat2Z.id.
  assert (has_name p "." (Z.to_nat (Z.of_nat (String.length stem) - (sep_index os p + 1)))
            (sep_index os p + 1) = true) as Hn.
  { replace (sep_index os p + 1) with (Z.of_nat (Z.to_nat (sep_index os p + 1))) at 2 by lia.
    apply has_name_spec. exists (String.length a). split; [lia|].
    rewrite Hp. rewrite get_app_l by lia. unfold stem.
    rewrite <- (Nat.add_0_r (String.length a)), get_app_r. simpl.
    intros [= ->]. by apply bool_decide_eq_false in Hcd. }
  rewrite Hn, andb_true_r.
  destruct (Z.ltb_spec (sep_index os p) (Z.of_nat (String.length stem))); [|lia].
  rewrite Hp. by rewrite take_app_length, drop_app_length.
Qed.

End OsPathFacts.

(** * The extension classifier *)

Module ClassifierFacts.
Import PyStr OsPath PyStrFacts OsPathFacts.

#[local] Arguments String.append !_ _ / : simpl nomatch.

Lemma is_dot_lower_ascii (c : ascii) : is_dot (lower_ascii c) = is_dot c.
Proof. destruct c as [[] [] [] [] [] [] [] []]; reflexivity. Qed.

Lemma lstrip_lower_no_dot (e : string) :
  any is_dot e = false → lstrip "." (lower e) = lower e.
Proof.
  destruct e as [|c e]; simpl; [done|]. intros H.
  apply orb_false_iff in H as [H _]. rewrite <- is_dot_lower_ascii in H.
  apply bool_decide_eq_false in H. by rewrite decide_False.
Qed.

Lemma any_weaken (P Q : ascii → bool) (s : string) :
  (∀ c, Q c = false → P c = false) → any Q s = false → any P s = false.
Proof.
  intros H. induction s as [|c s IH]; simpl; [done|].
  rewrite !orb_false_iff. intros [? ?]. split; [by apply H|by apply IH].
Qed.

Lemma elem_of_SUPPORTED_EXTS (x : string) :
  x ∈ SUPPORTED_EXTS ↔ x = "mp3" ∨ x = "wav".
Proof. unfold SUPPORTED_EXTS. set_solver. Qed.

(** The normalised extension is the lower-cased extension of the
    specification. *)
Lemma normalized_ext_has_extension (os : flavour) (path e : string) :
  has_extension os path e → normalized_ext os path = lower e.
Proof.
  intros (stem & -> & Hstem & He). unfold normalized_ext.
  rewrite (splitext_has_extension os stem e Hstem He). simpl.
  apply lstrip_lower_no_dot.
  eapply any_weaken; [|exact He]. intros c Hc. by apply orb_false_iff in Hc as [? _].
Qed.

Lemma normalized_ext_no_ext (os : flavour) (path : string) :
  (splitext os path).2 = EmptyString → normalized_ext os path = EmptyString.
Proof. unfold normalized_ext. by intros ->. Qed.

End ClassifierFacts.

(** C5.  [is_supported_media] is a function from paths to booleans (no
    effect, no failure).  It answers [true] exactly for the paths that have
    an extension [e], in the sense of [has_extension], whose lower-casing is
    [mp3] or [wav]; a path with an extension is classified by the lower-cased
    extension without its dot; a path without extension yields [false]. *)
Theorem is_supported_media_spec (os : OsPath.flavour) (path : string) :
  (is_supported_media os path = true ↔
     ∃ e, OsPath.has_extension os path e ∧
          (PyStr.lower e = "mp3" ∨ PyStr.lower e = "wav")) ∧
  (∀ e, OsPath.has_extension os path e →
        normalized_ext os path = PyStr.lower e ∧
        is_supported_media os path = bool_decide (PyStr.lower e ∈ SUPPORTED_EXTS)) ∧
  ((∀ e, ¬ OsPath.has_extension os path e) → is_supported_media os path = false) ∧
  (PyStr.any OsPath.is_dot path = false → is_supported_media os path = false).
Proof.
  assert (PyStr.any OsPath.is_dot path = false →
          ∀ e, ¬ OsPath.has_extension os path e) as Hnodot.
  { intros Hd e (stem & -> & _). rewrite PyStrFacts.any_app in Hd.
    apply orb_false_iff in Hd as [_ Hd]. done. }
  assert (∀ e, OsPath.has_extension os path e →
               normalized_ext os path = PyStr.lower e) as Hnorm.
  { intros e. apply ClassifierFacts.normalized_ext_has_extension. }
  assert ((OsPath.splitext os path).2 = EmptyString ∨
          ∃ e, OsPath.has_extension os path e) as Hcases.
  { destruct (decide ((OsPath.splitext os path).2 = EmptyString)) as [|Hne]; [by left|].
    right. destruct (OsPathFacts.splitext_ext_inv os path Hne) as (e & _ & He). eauto. }
  unfold is_supported_media. repeat split.
  - intros H. apply bool_decide_eq_true in H.
    destruct Hcases as [Hnone|[e He]].
    + rewrite (ClassifierFacts.normalized_ext_no_ext os path Hnone) in H.
      apply ClassifierFacts.elem_of_SUPPORTED_EXTS in H as [?|?]; done.
    + exists e. split; [done|]. rewrite (Hnorm e He) in H.
      by apply ClassifierFacts.elem_of_SUPPORTED_EXTS.
  - intros (e & He & Hl). apply bool_decide_eq_true. rewrite (Hnorm e He).
    by apply ClassifierFacts.elem_of_SUPPORTED_EXTS.
  - by apply Hnorm.
  - by rewrite (Hnorm e).
  - intros Hno. apply bool_decide_eq_false.
    destruct Hcases as [Hnone|[e He]]; [|by destruct (Hno e)].
    rewrite (ClassifierFacts.normalized_ext_no_ext os path Hnone).
    intros H. apply ClassifierFacts.elem_of_SUPPORTED_EXTS in H as [?|?]; done.
  - intros Hd. apply bool_decide_eq_false.
    destruct Hcases as [Hnone|[e He]]; [|by destruct (Hnodot Hd e)].
    rewrite (ClassifierFacts.normalized_ext_no_ext os path Hnone).
    intros H. apply ClassifierFacts.elem_of_SUPPORTED_EXTS in H as [?|?]; done.
Qed.

(** * The dispatcher *)

Module MainFacts.

Lemma print_all_run (lines : list string) :
  print_all lines = (map Print lines, Ok tt).
Proof.
  induction lines as [|line rest IH]; [done|].
  simpl. unfold bind, print, tell. by rewrite IH.
Qed.

(** [main] on a path that fails the existence check. *)
Lemma main_not_found (env : Env) (path : string) :
  isfile env path = false →
  main env path =
    ([Call_isfile path; Print ("Помилка: файл не знайдено — " ++ path)], Ok 1).
Proof. intros H. unfold main. simpl. by rewrite H. Qed.

(** [main] on an existing path that fails the extension check. *)
Lemma main_unsupported (env : Env) (path : string) :
  isfile env path = true →
  is_supported_media (os_path env) path = false →
  main env path =
    ([Call_isfile path; Call_is_supported_media path;
      Print "Непідтримуваний формат. Дозволено лише .mp3 та .wav"], Ok 2).
Proof. intros H1 H2. unfold main. simpl. by rewrite H1, H2. Qed.

(** [main] on a path that passes both checks, in terms of how the two
    lookups end. *)
Lemma main_passed (env : Env) (path : string) :
  isfile env path = true →
  is_supported_media (os_path env) path = true →
  main env path =
    match get_duration_seconds env path with
    | (l1, Ok ms) =>
        match get_metadata env path with
        | (l2, Ok md) =>
            ((preamble env path ++ l1 ++ [duration_line ms] ++ l2 ++
              map Print (render md))%list, Ok 0)
        | (l2, Raise e) =>
            if isinstance_Exception e then
              ((preamble env path ++ l1 ++ [duration_line ms] ++ l2 ++
                [Print ("Не вдалося прочитати метадані: " ++ exc_str e)])%list, Ok 0)
            else
              ((preamble env path ++ l1 ++ [duration_line ms] ++ l2)%list, Raise e)
        end
    | (l1, Raise e) =>
        if isinstance_Exception e then
          ((preamble env path ++ l1 ++
            [Print ("Помилка при обчисленні тривалості: " ++ exc_str e)])%list, Ok 3)
        else ((preamble env path ++ l1)%list, Raise e)
    end.
Proof.
  intros H1 H2. unfold main, preamble, duration_line. simpl. rewrite H1, H2. simpl.
  destruct (get_duration_seconds env path) as [l1 [ms|e]]; simpl.
  - destruct (get_metadata env path) as [l2 [md|e]]; simpl.
    + rewrite print_all_run. simpl. by rewrite ?app_nil_r, <- ?app_assoc.
    + destruct (isinstance_Exception e); simpl; by rewrite ?app_nil_r, <- ?app_assoc.
  - destruct (isinstance_Exception e); simpl; by rewrite ?app_nil_r, <- ?app_assoc.
Qed.

(** How the duration stage ends, by the state of the decoding capability. *)
Lemma get_duration_seconds_run (env : Env) (path : string) :
  get_duration_seconds env path =
    match AudioSegment env with
    | None =>
        ([Call_get_duration_seconds path],
         Raise (Exc RuntimeError
                  "Бібліотеку pydub не знайдено. Встановіть її: pip install pydub"))
    | Some from_file =>
        let ext := normalized_ext (os_path env) path in
        match from_file path ext with
        | Ok ms => ([Call_get_duration_seconds path; Call_from_file path ext], Ok ms)
        | Raise e =>
            ([Call_get_duration_seconds path; Call_from_file path ext],
             Raise (if isinstance_CouldntDecodeError e
                    then Exc RuntimeError
                           ("Не вдалося декодувати файл через pydub/ffmpeg. " ++
                            "Переконайтесь, що FFmpeg встановлено та додано до PATH.")
                    else e))
        end
    end.
Proof.
  unfold get_duration_seconds. destruct (AudioSegment env) as [f|]; [|done].
  simpl. destruct (f path _) as [ms|e]; [done|]. simpl.
  by destruct (isinstance_CouldntDecodeError e).
Qed.

End MainFacts.

(** * Formatting of the duration *)

Module FormatFacts.

Lemma digit_is_char (n : N) :
  digit n = String (digit_char (n mod 10)) EmptyString ∧ (n mod 10 < 10)%N.
Proof.
  assert (n mod 10 < 10)%N as Hlt by (apply N.mod_upper_bound; lia).
  split; [|done]. unfold digit. generalize dependent (n mod 10)%N. intros k Hk.
  rewrite <- (N2Nat.id k). assert (N.to_nat k < 10)%nat as Hk' by lia.
  generalize dependent (N.to_nat k). clear k Hk. intros m Hm.
  do 10 (destruct m as [|m]; [reflexivity|]). lia.
Qed.

(** [format_3f] writes the whole seconds, a dot and exactly three digits,
    and the digits are those of the milliseconds. *)
Lemma format_3f_shape (ms : N) :
  ∃ d1 d2 d3 : N,
    (d1 < 10 ∧ d2 < 10 ∧ d3 < 10)%N ∧
    (ms = 1000 * (ms / 1000) + 100 * d1 + 10 * d2 + d3)%N ∧
    format_3f ms =
      NilZero.string_of_uint (N.to_uint (ms / 1000)) ++ "." ++
      String (digit_char d1) (String (digit_char d2) (String (digit_char d3) EmptyString)).
Proof.
  set (frac := (ms mod 1000)%N).
  assert (frac < 1000)%N as Hf by (apply N.mod_upper_bound; lia).
  exists ((frac / 100) mod 10)%N, ((frac / 10) mod 10)%N, (frac mod 10)%N.
  destruct (digit_is_char (frac / 100)) as [E1 B1].
  destruct (digit_is_char (frac / 10)) as [E2 B2].
  destruct (digit_is_char frac) as [E3 B3].
  split; [done|]. split.
  - pose proof (N.div_mod ms 1000 ltac:(lia)) as Hms. fold frac in Hms.
    pose proof (N.div_mod frac 10 ltac:(lia)) as H10.
    pose proof (N.div_mod (frac / 10) 10 ltac:(lia)) as H100.
    assert (frac / 10 / 10 = frac / 100)%N as Hdd by (by rewrite N.Div0.div_div).
    rewrite Hdd in H100.
    assert (frac / 100 < 10)%N as Hsmall by (apply N.Div0.div_lt_upper_bound; lia).
    rewrite (N.mod_small (frac / 100) 10 Hsmall). lia.
  - unfold format_3f. fold frac. by rewrite E1, E2, E3.
Qed.

End FormatFacts.

(** * The claims about the dispatcher *)

(** C3.  A path that does not name an existing file: [main] prints the
    file-not-found message and returns 1, whatever the extension is; apart
    from the existence check nothing is called, so no later stage runs. *)
Theorem missing_file_exit_1 (env : Env) (path : string) :
  isfile env path = false →
  ∃ log,
    main env path = (log, Ok 1) ∧
    log = [Call_isfile path; Print ("Помилка: файл не знайдено — " ++ path)] ∧
    stdout log = ["Помилка: файл не знайдено — " ++ path] ∧
    filter (λ ev, is_stage_call ev = true) log = [].
Proof.
  intros H. eexists. split; [by apply MainFacts.main_not_found|]. done.
Qed.

Lemma missing_file_exit_1_witness :
  isfile Examples.env_song "missing.wav" = false ∧
  ∃ log,
    main Examples.env_song "missing.wav" = (log, Ok 1) ∧
    log = [Call_isfile "missing.wav";
           Print ("Помилка: файл не знайдено — " ++ "missing.wav")] ∧
    stdout log = ["Помилка: файл не знайдено — " ++ "missing.wav"] ∧
    filter (λ ev, is_stage_call ev = true) log = [].
Proof.
  split; [reflexivity|].
  apply (missing_file_exit_1 Examples.env_song "missing.wav"). reflexivity.
Defined.

(** C4.  An existing file whose lower-cased extension is neither [mp3] nor
    [wav]: [main] prints the unsupported-format message and returns 2; the
    duration stage is not entered and the decoder is not called. *)
Theorem unsupported_extension_exit_2 (env : Env) (path : string) :
  isfile env path = true →
  normalized_ext (os_path env) path ≠ "mp3" →
  normalized_ext (os_path env) path ≠ "wav" →
  ∃ log,
    main env path = (log, Ok 2) ∧
    log = [Call_isfile path; Call_is_supported_media path;
           Print "Непідтримуваний формат. Дозволено лише .mp3 та .wav"] ∧
    filter (λ ev, is_decode_call ev = true) log = [].
Proof.
  intros H Hm Hw. eexists. split; [|done].
  apply MainFacts.main_unsupported; [done|].
  apply bool_decide_eq_false. intros Hin.
  apply ClassifierFacts.elem_of_SUPPORTED_EXTS in Hin as [?|?]; done.
Qed.

Lemma unsupported_extension_exit_2_witness :
  isfile Examples.env_notes "notes.txt" = true ∧
  ∃ log,
    main Examples.env_notes "notes.txt" = (log, Ok 2) ∧
    log = [Call_isfile "notes.txt"; Call_is_supported_media "notes.txt";
           Print "Непідтримуваний формат. Дозволено лише .mp3 та .wav"] ∧
    filter (λ ev, is_decode_call ev = true) log = [].
Proof.
  split; [reflexivity|].
  apply (unsupported_extension_exit_2 Examples.env_notes "notes.txt");
    [reflexivity|vm_compute; discriminate..].
Defined.

(** C1.  The file exists, its extension is supported and the duration lookup
    returns: if the metadata lookup raises an error (an exception of the
    [Exception] family, the ones [except Exception] catches), [main] prints
    its detail after the duration line and returns 0. *)
Theorem metadata_failure_is_not_fatal (env : Env) (path : string)
    (l1 l2 : list event) (ms : N) (e : exc) :
  isfile env path = true →
  is_supported_media (os_path env) path = true →
  get_duration_seconds env path = (l1, Ok ms) →
  get_metadata env path = (l2, Raise e) →
  isinstance_Exception e = true →
  main env path =
    ((preamble env path ++ l1 ++ [duration_line ms] ++ l2 ++
      [Print ("Не вдалося прочитати метадані: " ++ exc_str e)])%list, Ok 0).
Proof.
  intros H1 H2 Hd Hm He.
  rewrite (MainFacts.main_passed env path H1 H2), Hd, Hm, He. done.
Qed.

Lemma metadata_failure_is_not_fatal_witness :
  isfile Examples.env_no_mutagen "song.mp3" = true ∧
  is_supported_media (os_path Examples.env_no_mutagen) "song.mp3" = true ∧
  get_duration_seconds Examples.env_no_mutagen "song.mp3" =
    ([Call_get_duration_seconds "song.mp3"; Call_from_file "song.mp3" "mp3"],
     Ok 61007%N) ∧
  get_metadata Examples.env_no_mutagen "song.mp3" =
    ([Call_get_metadata "song.mp3"],
     Raise (Exc RuntimeError
              "Бібліотеку mutagen не знайдено. Встановіть її: pip install mutagen")) ∧
  main Examples.env_no_mutagen "song.mp3" =
    ([Call_isfile "song.mp3"; Call_is_supported_media "song.mp3";
      Print "Файл: song.mp3"; Print "Формат: mp3";
      Call_get_duration_seconds "song.mp3"; Call_from_file "song.mp3" "mp3";
      Print "Тривалість: 61.007 c";
      Call_get_metadata "song.mp3";
      Print ("Не вдалося прочитати метадані: " ++
             "Бібліотеку mutagen не знайдено. Встановіть її: pip install mutagen")],
     Ok 0).
Proof.
  do 4 (split; [reflexivity|]).
  apply (metadata_failure_is_not_fatal Examples.env_no_mutagen "song.mp3"
           [Call_get_duration_seconds "song.mp3"; Call_from_file "song.mp3" "mp3"]
           [Call_get_metadata "song.mp3"] 61007%N
           (Exc RuntimeError
              "Бібліотеку mutagen не знайдено. Встановіть її: pip install mutagen"));
    reflexivity.
Defined.

(** C2.  The file exists and its extension is supported.  If pydub is
    missing, or if the decoder raises [CouldntDecodeError], [main] prints the
    detail of the error and returns 3.  If the decoder returns, [main]
    prints the duration line: the whole seconds, a dot, exactly three
    digits (those of the milliseconds), then the marker [ c]. *)
Theorem duration_stage (env : Env) (path : string) :
  isfile env path = true →
  is_supported_media (os_path env) path = true →
  let ext := normalized_ext (os_path env) path in
  (AudioSegment env = None →
   main env path =
     ((preamble env path ++
       [Call_get_duration_seconds path;
        Print ("Помилка при обчисленні тривалості: " ++
               "Бібліотеку pydub не знайдено. Встановіть її: pip install pydub")])%list,
      Ok 3)) ∧
  (∀ from_file e,
     AudioSegment env = Some from_file →
     from_file path ext = Raise e →
     isinstance_CouldntDecodeError e = true →
     main env path =
       ((preamble env path ++
         [Call_get_duration_seconds path; Call_from_file path ext;
          Print ("Помилка при обчисленні тривалості: " ++
                 "Не вдалося декодувати файл через pydub/ffmpeg. " ++
                 "Переконайтесь, що FFmpeg встановлено та додано до PATH.")])%list,
        Ok 3)) ∧
  (∀ from_file ms,
     AudioSegment env = Some from_file →
     from_file path ext = Ok ms →
     (∃ rest r,
        main env path =
          ((preamble env path ++
            [Call_get_duration_seconds path; Call_from_file path ext;
             Print ("Тривалість: " ++ format_3f ms ++ " c")] ++ rest)%list, r)) ∧
     ∃ d1 d2 d3 : N,
       (d1 < 10 ∧ d2 < 10 ∧ d3 < 10)%N ∧
       (ms = 1000 * (ms / 1000) + 100 * d1 + 10 * d2 + d3)%N ∧
       format_3f ms =
         NilZero.string_of_uint (N.to_uint (ms / 1000)) ++ "." ++
         String (digit_char d1)
           (String (digit_char d2) (String (digit_char d3) EmptyString))).
Proof.
  intros H1 H2 ext.
  pose proof (MainFacts.main_passed env path H1 H2) as Hmain.
  rewrite MainFacts.get_duration_seconds_run in Hmain. fold ext in Hmain.
  split; [|split].
  - intros Hnone. rewrite Hnone in Hmain. done.
  - intros f e Hf Hr He. rewrite Hf in Hmain. simpl in Hmain.
    rewrite Hr, He in Hmain. done.
  - intros f ms Hf Hr. split; [|apply FormatFacts.format_3f_shape].
    rewrite Hf in Hmain. simpl in Hmain. rewrite Hr in Hmain.
    destruct (get_metadata env path) as [l2 [md|e]].
    + eexists _, _. rewrite Hmain. unfold duration_line. simpl. reflexivity.
    + destruct (isinstance_Exception e); eexists _, _; rewrite Hmain;
        unfold duration_line; simpl; reflexivity.
Qed.

Lemma duration_stage_witness :
  isfile Examples.env_bare "song.mp3" = true ∧
  is_supported_media (os_path Examples.env_bare) "song.mp3" = true ∧
  AudioSegment Examples.env_bare = None ∧
  main Examples.env_bare "song.mp3" =
    ([Call_isfile "song.mp3"; Call_is_supported_media "song.mp3";
      Print "Файл: song.mp3"; Print "Формат: mp3";
      Call_get_duration_seconds "song.mp3";
      Print ("Помилка при обчисленні тривалості: " ++
             "Бібліотеку pydub не знайдено. Встановіть її: pip install pydub")],
     Ok 3).
Proof.
  do 3 (split; [reflexivity|]).
  apply (duration_stage Examples.env_bare "song.mp3"); reflexivity.
Defined.

(** C10, as amended.  The file exists and its extension is supported: every
    exception of the [Exception] family that leaves the duration stage,
    whatever its class, is caught by [main], printed as one message and
    turned into the return value 3.  The message is one line of the output
    when the text of the exception holds no line feed. *)
Theorem duration_exception_exit_3 (env : Env) (path : string)
    (l : list event) (e : exc) :
  isfile env path = true →
  is_supported_media (os_path env) path = true →
  get_duration_seconds env path = (l, Raise e) →
  isinstance_Exception e = true →
  main env path =
    ((preamble env path ++ l ++
      [Print ("Помилка при обчисленні тривалості: " ++ exc_str e)])%list, Ok 3) ∧
  (PyStr.any is_LF (exc_str e) = false →
   lines_of (written ["Помилка при обчисленні тривалості: " ++ exc_str e]) =
     ["Помилка при обчисленні тривалості: " ++ exc_str e]).
Proof.
  intros H1 H2 Hd He. split.
  - rewrite (MainFacts.main_passed env path H1 H2), Hd, He. done.
  - intros Hline. apply LineFacts.lines_of_written. constructor; [|constructor].
    rewrite PyStrFacts.any_app, Hline. reflexivity.
Qed.

Lemma duration_exception_exit_3_witness :
  isfile Examples.env_decoder_missing "song.mp3" = true ∧
  is_supported_media (os_path Examples.env_decoder_missing) "song.mp3" = true ∧
  get_duration_seconds Examples.env_decoder_missing "song.mp3" =
    ([Call_get_duration_seconds "song.mp3"; Call_from_file "song.mp3" "mp3"],
     Raise (Exc OtherException "[Errno 2] No such file or directory: 'ffprobe'")) ∧
  main Examples.env_decoder_missing "song.mp3" =
    ([Call_isfile "song.mp3"; Call_is_supported_media "song.mp3";
      Print "Файл: song.mp3"; Print "Формат: mp3";
      Call_get_duration_seconds "song.mp3"; Call_from_file "song.mp3" "mp3";
      Print ("Помилка при обчисленні тривалості: " ++
             "[Errno 2] No such file or directory: 'ffprobe'")],
     Ok 3) ∧
  lines_of (written ["Помилка при обчисленні тривалості: " ++
                     "[Errno 2] No such file or directory: 'ffprobe'"]) =
    ["Помилка при обчисленні тривалості: " ++
     "[Errno 2] No such file or directory: 'ffprobe'"].
Proof.
  do 3 (split; [reflexivity|]).
  destruct (duration_exception_exit_3 Examples.env_decoder_missing "song.mp3"
              [Call_get_duration_seconds "song.mp3"; Call_from_file "song.mp3" "mp3"]
              (Exc OtherException "[Errno 2] No such file or directory: 'ffprobe'")
              eq_refl eq_refl eq_refl eq_refl) as [Hmain Hline].
  split; [exact Hmain|]. exact (Hline eq_refl).
Defined.

(** C10, as stated, fails twice.  A [KeyboardInterrupt] raised while the
    file is decoded leaves the duration stage, is not caught by
    [except Exception] and leaves [main]; nothing is printed for it and 3 is
    not returned.  And an exception that is caught is printed with its own
    text: when that text has two lines, so has the message. *)
Lemma duration_exception_escapes :
  (isfile Examples.env_interrupted_decode "song.mp3" = true ∧
   is_supported_media (os_path Examples.env_interrupted_decode) "song.mp3" = true ∧
   get_duration_seconds Examples.env_interrupted_decode "song.mp3" =
     ([Call_get_duration_seconds "song.mp3"; Call_from_file "song.mp3" "mp3"],
      Raise (Exc SystemExiting "")) ∧
   main Examples.env_interrupted_decode "song.mp3" =
     ([Call_isfile "song.mp3"; Call_is_supported_media "song.mp3";
       Print "Файл: song.mp3"; Print "Формат: mp3";
       Call_get_duration_seconds "song.mp3"; Call_from_file "song.mp3" "mp3"],
      Raise (Exc SystemExiting "")) ∧
   ¬ ∃ log, main Examples.env_interrupted_decode "song.mp3" = (log, Ok 3)) ∧
  (get_duration_seconds Samples.env_two_line_error "song.mp3" =
     ([Call_get_duration_seconds "song.mp3"; Call_from_file "song.mp3" "mp3"],
      Raise (Exc OtherException ("decoder failed" ++ String LF "see the log"))) ∧
   isinstance_Exception
     (Exc OtherException ("decoder failed" ++ String LF "see the log")) = true ∧
   (main Samples.env_two_line_error "song.mp3").2 = Ok 3 ∧
   stdout (main Samples.env_two_line_error "song.mp3").1 =
     ["Файл: song.mp3"; "Формат: mp3";
      "Помилка при обчисленні тривалості: decoder failed" ++ String LF "see the log"] ∧
   lines_of (written (stdout (main Samples.env_two_line_error "song.mp3").1)) =
     ["Файл: song.mp3"; "Формат: mp3";
      "Помилка при обчисленні тривалості: decoder failed"; "see the log"]).
Proof.
  split.
  - repeat split; try reflexivity. intros [log H]. vm_compute in H. discriminate.
  - repeat split; vm_compute; reflexivity.
Qed.

(** * The metadata resolver *)

Module MetadataFacts.

Lemma easy_tags_log (mf : option pyfile) : (easy_tags mf).1 = [].
Proof.
  unfold easy_tags. destruct (truthy_tags mf) as [t|]; [|done].
  simpl. by destruct (tags_items t).
Qed.

Lemma full_tags_log (mf : option pyfile) (tags_out : gmap string string) :
  (full_tags mf tags_out).1 = [].
Proof.
  unfold full_tags. destruct (truthy_tags mf) as [t|]; [|done].
  simpl. destruct (tags_items t) as [items|e]; [done|]. simpl.
  by destruct (isinstance_Exception e).
Qed.

(** [get_metadata], by what the collaborator answers. *)
Lemma get_metadata_run (env : Env) (path : string) :
  get_metadata env path =
    match MutagenFile env with
    | None =>
        ([Call_get_metadata path],
         Raise (Exc RuntimeError
                  "Бібліотеку mutagen не знайдено. Встановіть її: pip install mutagen"))
    | Some mutagen_file =>
        match mutagen_file path true with
        | Raise e => (calls_easy path, Raise e)
        | Ok mf_easy =>
            match (easy_tags mf_easy).2 with
            | Raise e => (calls_easy path, Raise e)
            | Ok tags_out =>
                if decide (tags_out = ∅) then
                  match mutagen_file path false with
                  | Raise e => (calls_both path, Raise e)
                  | Ok mf_full => (calls_both path, (full_tags mf_full tags_out).2)
                  end
                else (calls_easy path, Ok tags_out)
            end
        end
    end.
Proof.
  unfold get_metadata, calls_easy, calls_both.
  destruct (MutagenFile env) as [f|]; [|done]. simpl.
  destruct (f path true) as [mf_easy|e]; [|done]. simpl.
  pose proof (easy_tags_log mf_easy) as Hl.
  destruct (easy_tags mf_easy) as [l [tags_out|e]]; simpl in *; subst l; [|done].
  destruct (decide (tags_out = ∅)) as [->|Hne]; simpl; [|done].
  destruct (f path false) as [mf_full|e]; [|done]. simpl.
  pose proof (full_tags_log mf_full ∅) as Hl.
  destruct (full_tags mf_full ∅) as [l r]; simpl in *; by subst l.
Qed.

(** Items for other keys leave the entry of [k] alone. *)
Lemma store_items_lookup_notin (value : pyobj → string) (items : list (string * pyobj))
    (m : gmap string string) (k : string) :
  k ∉ items.*1 → store_items value items m !! k = m !! k.
Proof.
  revert m. induction items as [|[k' v'] items IH]; intros m Hk; [done|].
  simpl in *. apply not_elem_of_cons in Hk as [Hne Hk].
  unfold store_items in *. simpl. rewrite IH by done.
  by rewrite lookup_insert_ne.
Qed.

(** The last item for a key decides its entry. *)
Lemma store_items_lookup_last (value : pyobj → string) (pre post : list (string * pyobj))
    (m : gmap string string) (k : string) (v : pyobj) :
  k ∉ post.*1 →
  store_items value (pre ++ (k, v) :: post) m !! k = Some (value v).
Proof.
  intros Hk. unfold store_items. rewrite foldl_app. simpl.
  fold (store_items value post (<[k:=value v]> (foldl (λ acc kv, <[kv.1:=value kv.2]> acc) m pre))).
  rewrite store_items_lookup_notin by done. apply lookup_insert_eq.
Qed.

Lemma store_items_nonempty (value : pyobj → string) (items : list (string * pyobj))
    (m : gmap string string) :
  items ≠ [] → store_items value items m ≠ ∅.
Proof.
  intros Hne. destruct (exists_last Hne) as (pre & [k v] & ->). intros Hempty.
  pose proof (store_items_lookup_last value pre [] m k v) as Hl.
  rewrite Hempty, lookup_empty in Hl. specialize (Hl ltac:(apply not_elem_of_nil)). done.
Qed.

End MetadataFacts.

(** C9, as amended.  The simplified view yields no entries and [items()] of
    the full view raises an exception of the [Exception] family:
    [get_metadata] swallows it and returns the empty mapping, and [main],
    once the duration is known, prints the no-metadata notice (no
    metadata-read failure is reported) and returns 0. *)
Theorem raw_items_failure_swallowed (env : Env) (path : string)
    (mutagen_file : string → bool → result (option pyfile))
    (mf_easy mf_full : option pyfile) (t : pytags) (e : exc) :
  MutagenFile env = Some mutagen_file →
  mutagen_file path true = Ok mf_easy →
  easy_tags mf_easy = ([], Ok ∅) →
  mutagen_file path false = Ok mf_full →
  truthy_tags mf_full = Some t →
  tags_items t = Raise e →
  isinstance_Exception e = true →
  get_metadata env path = (calls_both path, Ok ∅) ∧
  ∀ l1 ms,
    isfile env path = true →
    is_supported_media (os_path env) path = true →
    get_duration_seconds env path = (l1, Ok ms) →
    main env path =
      ((preamble env path ++ l1 ++ [duration_line ms] ++ calls_both path ++
        [Print "Метадані відсутні або не підтримуються для цього файла."])%list,
       Ok 0).
Proof.
  intros Hf Heasy Hnone Hfull Ht Hitems He.
  assert (get_metadata env path = (calls_both path, Ok ∅)) as Hmd.
  { rewrite MetadataFacts.get_metadata_run, Hf, Heasy, Hnone. simpl.
    rewrite decide_True by done. rewrite Hfull. unfold full_tags.
    rewrite Ht, Hitems. simpl. by rewrite He. }
  split; [done|]. intros l1 ms H1 H2 Hd.
  rewrite (MainFacts.main_passed env path H1 H2), Hd, Hmd. done.
Qed.

Lemma raw_items_failure_swallowed_witness :
  get_metadata (Examples.env_raw_items_fail (Exc OtherException "bad tag block"))
    "song.mp3" = (calls_both "song.mp3", Ok ∅) ∧
  main (Examples.env_raw_items_fail (Exc OtherException "bad tag block")) "song.mp3" =
    ([Call_isfile "song.mp3"; Call_is_supported_media "song.mp3";
      Print "Файл: song.mp3"; Print "Формат: mp3";
      Call_get_duration_seconds "song.mp3"; Call_from_file "song.mp3" "mp3";
      Print "Тривалість: 3.000 c";
      Call_get_metadata "song.mp3"; Call_MutagenFile "song.mp3" true;
      Call_MutagenFile "song.mp3" false;
      Print "Метадані відсутні або не підтримуються для цього файла."],
     Ok 0).
Proof.
  destruct (raw_items_failure_swallowed
              (Examples.env_raw_items_fail (Exc OtherException "bad tag block"))
              "song.mp3" _ None
              (Some (PyFile (Some (PyTags true (Raise (Exc OtherException "bad tag block"))))))
              (PyTags true (Raise (Exc OtherException "bad tag block")))
              (Exc OtherException "bad tag block")
              eq_refl eq_refl eq_refl eq_refl eq_refl eq_refl eq_refl) as [Hmd Hmain].
  split; [exact Hmd|].
  exact (Hmain [Call_get_duration_seconds "song.mp3"; Call_from_file "song.mp3" "mp3"]
           3000%N eq_refl eq_refl eq_refl).
Defined.

(** C9, as stated, fails: when [items()] of the full view is interrupted by
    [KeyboardInterrupt], [except Exception] does not catch it; it leaves
    [get_metadata] and [main], no notice is printed and 0 is not returned. *)
Lemma raw_items_failure_escapes :
  MutagenFile (Examples.env_raw_items_fail (Exc SystemExiting "")) =
    Some (fun _ (easy : bool) =>
            if easy then Ok None
            else Ok (Some (PyFile (Some (PyTags true (Raise (Exc SystemExiting ""))))))) ∧
  easy_tags None = ([], Ok ∅) ∧
  get_metadata (Examples.env_raw_items_fail (Exc SystemExiting "")) "song.mp3" =
    (calls_both "song.mp3", Raise (Exc SystemExiting "")) ∧
  main (Examples.env_raw_items_fail (Exc SystemExiting "")) "song.mp3" =
    ([Call_isfile "song.mp3"; Call_is_supported_media "song.mp3";
      Print "Файл: song.mp3"; Print "Формат: mp3";
      Call_get_duration_seconds "song.mp3"; Call_from_file "song.mp3" "mp3";
      Print "Тривалість: 3.000 c";
      Call_get_metadata "song.mp3"; Call_MutagenFile "song.mp3" true;
      Call_MutagenFile "song.mp3" false],
     Raise (Exc SystemExiting "")) ∧
  ¬ ∃ log, main (Examples.env_raw_items_fail (Exc SystemExiting "")) "song.mp3" = (log, Ok 0).
Proof.
  repeat split; try reflexivity. intros [log H]. vm_compute in H. discriminate.
Qed.



(** * The order of the rendered keys *)

Module OrderFacts.

Lemma ascii_compare_refl (a : ascii) : Ascii.compare a a = Eq.
Proof. unfold Ascii.compare. apply N.compare_refl. Qed.

Lemma ascii_compare_eq (a b : ascii) : Ascii.compare a b = Eq → a = b.
Proof.
  unfold Ascii.compare. intros H. apply N.compare_eq in H.
  rewrite <- (ascii_N_embedding a), <- (ascii_N_embedding b). by rewrite H.
Qed.

Lemma ascii_compare_lt_trans (a b c : ascii) :
  Ascii.compare a b = Lt → Ascii.compare b c = Lt → Ascii.compare a c = Lt.
Proof. unfold Ascii.compare. rewrite !N.compare_lt_iff. lia. Qed.

(** [String.leb] on two non-empty strings: the heads decide, or they are
    equal and the tails decide. *)
Lemma leb_cons (a b : ascii) (s t : string) :
  String.leb (String a s) (String b t) = true ↔
  Ascii.compare a b = Lt ∨ (a = b ∧ String.leb s t = true).
Proof.
  unfold String.leb. simpl. destruct (Ascii.compare a b) eqn:Hab.
  - apply ascii_compare_eq in Hab as ->. split; [by right|]. by intros [?|[_ ?]].
  - split; [by left|done].
  - split; [done|]. intros [?|[-> _]]; [done|]. by rewrite ascii_compare_refl in Hab.
Qed.

Lemma leb_nil_l (t : string) : String.leb EmptyString t = true.
Proof. by destruct t. Qed.

Lemma leb_nil_r (s : string) : String.leb s EmptyString = true → s = EmptyString.
Proof. by destruct s. Qed.

Global Instance string_le_total : Total string_le.
Proof. intros a b. apply String.leb_total. Qed.

Global Instance string_le_antisym : AntiSymm (=) string_le.
Proof. intros a b. apply String.leb_antisym. Qed.

Global Instance string_le_trans : Transitive string_le.
Proof.
  unfold string_le. intros a. induction a as [|x a IH]; intros b c Hab Hbc.
  - apply leb_nil_l.
  - destruct b as [|y b]; [by apply leb_nil_r in Hab|].
    destruct c as [|z c]; [by apply leb_nil_r in Hbc|].
    apply leb_cons in Hab. apply leb_cons in Hbc. apply leb_cons.
    destruct Hab as [Hxy|[-> Hab]], Hbc as [Hyz|[-> Hbc]].
    + left. by eapply ascii_compare_lt_trans.
    + by left.
    + by left.
    + right. split; [done|]. by eapply IH.
Qed.

Lemma sorted_keys_perm (md : gmap string string) :
  sorted_keys md ≡ₚ (map_to_list md).*1.
Proof. apply merge_sort_Permutation. Qed.

Lemma sorted_keys_sorted (md : gmap string string) :
  Sorted string_le (sorted_keys md).
Proof. apply (Sorted_merge_sort string_le). Qed.

Lemma sorted_keys_NoDup (md : gmap string string) : NoDup (sorted_keys md).
Proof. rewrite sorted_keys_perm. apply NoDup_fst_map_to_list. Qed.

Lemma elem_of_sorted_keys (md : gmap string string) (k : string) :
  k ∈ sorted_keys md ↔ is_Some (md !! k).
Proof.
  rewrite sorted_keys_perm, list_elem_of_fmap. split.
  - intros ([k' v] & -> & Hin). apply elem_of_map_to_list in Hin. by exists v.
  - intros [v Hv]. exists (k, v). split; [done|]. by apply elem_of_map_to_list.
Qed.

Lemma length_sorted_keys (md : gmap string string) :
  length (sorted_keys md) = size md.
Proof. by rewrite sorted_keys_perm, length_fmap, length_map_to_list. Qed.

(** The sorted arrangement of the keys is unique. *)
Lemma sorted_keys_unique (md : gmap string string) (l : list string) :
  Sorted string_le l → l ≡ₚ ((map_to_list md).*1) → l = sorted_keys md.
Proof.
  intros Hs Hp. apply (Sorted_unique string_le); [done|apply sorted_keys_sorted|].
  by rewrite Hp, sorted_keys_perm.
Qed.

Lemma tag_line_lookup (md : gmap string string) (k v : string) :
  md !! k = Some v → tag_line md k = "  - " ++ k ++ ": " ++ v.
Proof. intros H. unfold tag_line. by rewrite (lookup_total_correct md k v H). Qed.

(** A key of the mapping has exactly one place among the sorted keys. *)
Lemma sorted_keys_split (md : gmap string string) (k : string) :
  is_Some (md !! k) →
  ∃ before after, sorted_keys md = (before ++ k :: after)%list ∧
                  (k ∉ before) ∧ (k ∉ after).
Proof.
  intros Hk. apply elem_of_sorted_keys in Hk.
  apply list_elem_of_split in Hk as (before & after & Heq).
  exists before, after. split; [done|].
  pose proof (sorted_keys_NoDup md) as Hnd. rewrite Heq in Hnd.
  apply NoDup_app in Hnd as (_ & Hdisj & Hnd). apply NoDup_cons in Hnd as [Hafter _].
  split; [|done]. intros Hin. apply (Hdisj k Hin). by left.
Qed.

End OrderFacts.

(** C8, as amended.  For a non-empty mapping [main] prints the header and
    then one text per tag, each the bullet followed by [key: value], the
    keys in lexicographic order without repetition; the texts are a
    function of the mapping alone, since the sorted arrangement of its keys
    is unique.  When no key and no value holds a line feed, each text is one
    line of the output: the header and exactly one line per tag.  For the
    empty mapping the single no-metadata notice is printed. *)
Theorem render_sorted_one_line_per_tag (md : gmap string string) :
  (md ≠ ∅ →
   render md = "Метадані:" :: map (tag_line md) (sorted_keys md) ∧
   length (render md) = S (size md)) ∧
  (md = ∅ →
   render md = ["Метадані відсутні або не підтримуються для цього файла."]) ∧
  Sorted string_le (sorted_keys md) ∧
  NoDup (sorted_keys md) ∧
  (∀ k, k ∈ sorted_keys md ↔ is_Some (md !! k)) ∧
  (∀ k v, md !! k = Some v → tag_line md k = "  - " ++ k ++ ": " ++ v) ∧
  (∀ l, Sorted string_le l → l ≡ₚ ((map_to_list md).*1) → l = sorted_keys md) ∧
  (∀ env path l1 ms l2,
     isfile env path = true →
     is_supported_media (os_path env) path = true →
     get_duration_seconds env path = (l1, Ok ms) →
     get_metadata env path = (l2, Ok md) →
     main env path =
       ((preamble env path ++ l1 ++ [duration_line ms] ++ l2 ++
         map Print (render md))%list, Ok 0)) ∧
  (single_line_tags md →
   lines_of (written (render md)) = render md ∧
   (md ≠ ∅ → length (lines_of (written (render md))) = S (size md))).
Proof.
  assert (md ≠ ∅ → length (render md) = S (size md)) as Hlen.
  { intros Hne. unfold render. rewrite decide_False by done.
    simpl. by rewrite length_map, OrderFacts.length_sorted_keys. }
  split; [|split; [|split; [|split; [|split; [|split; [|split; [|split]]]]]]].
  - intros Hne. unfold render. rewrite decide_False by done. split; [done|].
    simpl. by rewrite length_map, OrderFacts.length_sorted_keys.
  - intros ->. done.
  - apply OrderFacts.sorted_keys_sorted.
  - apply OrderFacts.sorted_keys_NoDup.
  - apply OrderFacts.elem_of_sorted_keys.
  - apply OrderFacts.tag_line_lookup.
  - apply OrderFacts.sorted_keys_unique.
  - intros env path l1 ms l2 H1 H2 Hd Hm.
    rewrite (MainFacts.main_passed env path H1 H2), Hd, Hm. done.
  - intros Hsingle.
    assert (lines_of (written (render md)) = render md) as Hlines.
    { apply LineFacts.lines_of_written. unfold render.
      destruct (decide (md = ∅)); [by repeat constructor|].
      constructor; [reflexivity|]. apply Forall_fmap, Forall_forall.
      intros k Hk. apply OrderFacts.elem_of_sorted_keys in Hk as [v Hv].
      destruct (Hsingle k v Hv) as [Hk' Hv'].
      by apply (LineFacts.tag_line_single_line md k v). }
    split; [done|]. intros Hne. rewrite Hlines. by apply Hlen.
Qed.

Lemma render_sorted_one_line_per_tag_witness :
  single_line_tags (<["artist" := "A, B"]> (<["title" := "Test"]> ∅)) ∧
  lines_of (written (render (<["artist" := "A, B"]> (<["title" := "Test"]> ∅)))) =
    ["Метадані:"; "  - artist: A, B"; "  - title: Test"].
Proof.
  assert (single_line_tags (<["artist" := "A, B"]> (<["title" := "Test"]> ∅))) as H.
  { apply (bool_decide_unpack _). vm_compute. exact I. }
  split; [exact H|].
  destruct (render_sorted_one_line_per_tag (<["artist" := "A, B"]> (<["title" := "Test"]> ∅)))
    as (_ & _ & _ & _ & _ & _ & _ & _ & Hlines).
  destruct (Hlines H) as [-> _]. vm_compute. reflexivity.
Defined.

(** C8, as stated, fails: a value is printed as it is, so a value of two
    lines, such as the lyrics frame the full view hands out here, makes two
    lines of the output under one key; the one tag of this mapping takes
    two lines behind the header, not one. *)
Lemma tag_value_spans_lines :
  get_metadata Samples.env_lyrics "song.mp3" =
    (calls_both "song.mp3", Ok {[ "USLT" := "la" ++ String LF "la" ]}) ∧
  ({[ "USLT" := "la" ++ String LF "la" ]} : gmap string string) ≠ ∅ ∧
  size ({[ "USLT" := "la" ++ String LF "la" ]} : gmap string string) = 1%nat ∧
  render {[ "USLT" := "la" ++ String LF "la" ]} =
    ["Метадані:"; "  - USLT: la" ++ String LF "la"] ∧
  lines_of (written (render {[ "USLT" := "la" ++ String LF "la" ]})) =
    ["Метадані:"; "  - USLT: la"; "la"] ∧
  length (lines_of (written (render {[ "USLT" := "la" ++ String LF "la" ]}))) ≠
    S (size ({[ "USLT" := "la" ++ String LF "la" ]} : gmap string string)).
Proof.
  split; [vm_compute; reflexivity|].
  split; [vm_compute; discriminate|].
  split; [reflexivity|]. split; [reflexivity|]. split; [reflexivity|].
  vm_compute. discriminate.
Qed.

(** Where the two loops do join.  A tag of the simplified view whose value
    is a list or a tuple, and a tag of the full view whose [text] is a list
    or a tuple (the full view being the one consulted), is stored once,
    under its key, as its elements joined with a comma and a space, and is
    printed as one text.  [(k, v)] is the last item of the view for its key,
    as every item of a container with unique keys is. *)
Theorem multi_valued_tag_joined (env : Env) (path : string)
    (mutagen_file : string → bool → result (option pyfile))
    (pre post : list (string * pyobj)) (k : string) (v : pyobj) (xs : list pyobj) :
  MutagenFile env = Some mutagen_file →
  k ∉ post.*1 →
  (∃ mf_easy t,
     mutagen_file path true = Ok mf_easy ∧
     truthy_tags mf_easy = Some t ∧
     tags_items t = Ok (pre ++ (k, v) :: post)%list ∧
     seq_elems v = Some xs) ∨
  (∃ mf_easy mf_full t text,
     mutagen_file path true = Ok mf_easy ∧
     easy_tags mf_easy = ([], Ok ∅) ∧
     mutagen_file path false = Ok mf_full ∧
     truthy_tags mf_full = Some t ∧
     tags_items t = Ok (pre ++ (k, v) :: post)%list ∧
     getattr_text v = Some text ∧ seq_elems text = Some xs) →
  ∃ log md before after,
    get_metadata env path = (log, Ok md) ∧
    md !! k = Some (join_strs xs) ∧
    sorted_keys md = (before ++ k :: after)%list ∧
    (k ∉ before) ∧ (k ∉ after) ∧
    render md =
      "Метадані:" ::
      (map (tag_line md) before ++
       ("  - " ++ k ++ ": " ++ join_strs xs)%string :: map (tag_line md) after)%list.
Proof.
  intros Hf Hlast Hview.
  assert (∃ log md, get_metadata env path = (log, Ok md) ∧
                    md !! k = Some (join_strs xs)) as (log & md & Hmd & Hk).
  { rewrite MetadataFacts.get_metadata_run, Hf.
    destruct Hview as [(mf_easy & t & Heasy & Ht & Hitems & Hxs)
                      |(mf_easy & mf_full & t & text & Heasy & Hnone & Hfull & Ht &
                        Hitems & Htext & Hxs)].
    - rewrite Heasy. unfold easy_tags. rewrite Ht, Hitems. simpl.
      assert (easy_value v = join_strs xs) as Hval.
      { destruct v; simpl in Hxs; by inversion Hxs. }
      rewrite decide_False.
      + eexists _, _. split; [done|].
        by rewrite MetadataFacts.store_items_lookup_last, Hval.
      + apply MetadataFacts.store_items_nonempty. by destruct pre.
    - rewrite Heasy, Hnone. simpl. rewrite decide_True by done. rewrite Hfull.
      unfold full_tags. rewrite Ht, Hitems. simpl.
      assert (full_value v = join_strs xs) as Hval.
      { unfold full_value. rewrite Htext. destruct text; simpl in Hxs; by inversion Hxs. }
      eexists _, _. split; [done|].
      by rewrite MetadataFacts.store_items_lookup_last, Hval. }
  destruct (OrderFacts.sorted_keys_split md k) as (before & after & Hsplit & Hb & Ha);
    [by eexists|].
  exists log, md, before, after. repeat split; try done.
  unfold render. rewrite decide_False.
  - by rewrite Hsplit, map_app, map_cons, (OrderFacts.tag_line_lookup md k _ Hk).
  - intros ->. by rewrite lookup_empty in Hk.
Qed.

Lemma multi_valued_tag_joined_witness :
  ∃ log md before after,
    get_metadata Examples.env_raw "song.mp3" = (log, Ok md) ∧
    md !! "TPE1" = Some (join_strs [Examples.pystr "A"; Examples.pystr "B"]) ∧
    sorted_keys md = (before ++ "TPE1" :: after)%list ∧
    ("TPE1" ∉ before) ∧ ("TPE1" ∉ after) ∧
    render md =
      "Метадані:" ::
      (map (tag_line md) before ++
       ("  - " ++ "TPE1" ++ ": " ++
        join_strs [Examples.pystr "A"; Examples.pystr "B"])%string
       :: map (tag_line md) after)%list.
Proof.
  apply (multi_valued_tag_joined Examples.env_raw "song.mp3" _
           [] [("k", PList [Examples.pystr "a"; Examples.pystr "b"])] "TPE1"
           (PObj "A/B" "TPE1(text=['A', 'B'])"
              (Some (PList [Examples.pystr "A"; Examples.pystr "B"])))
           [Examples.pystr "A"; Examples.pystr "B"] eq_refl).
  - apply (bool_decide_unpack _). vm_compute. exact I.
  - right. eexists (Some (PyFile None)), _, _, _. repeat split; reflexivity.
Defined.

(** C7.  The simplified loop joins a value that is a list or a tuple, as the
    claim says; the full loop misses that case.  With no simplified tags and
    the raw item [k] with the list value [['a', 'b']], the full view looks
    only at a [text] attribute, which a list has not, and stores the
    bracketed [str(value)] instead of the elements joined with a comma and a
    space; that is what is printed for the key. *)
Lemma raw_list_value_not_joined :
  seq_elems (PList [Examples.pystr "a"; Examples.pystr "b"]) =
    Some [Examples.pystr "a"; Examples.pystr "b"] ∧
  join_strs [Examples.pystr "a"; Examples.pystr "b"] = "a, b" ∧
  ∃ md,
    get_metadata Examples.env_raw "song.mp3" = (calls_both "song.mp3", Ok md) ∧
    md !! "k" = Some "['a', 'b']" ∧
    md !! "k" ≠ Some (join_strs [Examples.pystr "a"; Examples.pystr "b"]) ∧
    render md = ["Метадані:"; "  - TPE1: A, B"; "  - k: ['a', 'b']"].
Proof.
  split; [reflexivity|]. split; [reflexivity|].
  eexists. split; [vm_compute; reflexivity|].
  split; [reflexivity|]. split; [vm_compute; discriminate|]. reflexivity.
Qed.

(** The mirror image of the slip of C7, in the simplified loop: it tests the
    value itself and never looks at [text].  For a tagged WAV file the view
    asked for with [easy=True] hands out frames, and a frame of two values
    is stored as [str(frame)], the values with NUL between them, not joined
    with a comma and a space. *)
Lemma simplified_frame_not_joined :
  get_metadata Samples.env_wav_frames "song.wav" =
    (calls_easy "song.wav", Ok {[ "TPE1" := "A" ++ String "000" "B" ]}) ∧
  getattr_text (PObj ("A" ++ String "000" "B") "TPE1(text=['A', 'B'])"
                  (Some (PList [Examples.pystr "A"; Examples.pystr "B"]))) =
    Some (PList [Examples.pystr "A"; Examples.pystr "B"]) ∧
  join_strs [Examples.pystr "A"; Examples.pystr "B"] = "A, B" ∧
  ("A" ++ String "000" "B") ≠ "A, B".
Proof.
  split; [vm_compute; reflexivity|].
  split; [reflexivity|]. split; [reflexivity|]. vm_compute. discriminate.
Qed.

(** * Runs of the sample environments *)

Module Runs.

Example splitext_nested :
  OsPath.splitext OsPath.Posix "a/b.c/Song.Mp3" = ("a/b.c/Song", ".Mp3").
Proof. reflexivity. Qed.

Example splitext_hidden_file :
  OsPath.splitext OsPath.Posix ".mp3" = (".mp3", "").
Proof. reflexivity. Qed.

Example splitext_dot_in_directory :
  OsPath.splitext OsPath.Posix "a.mp3/b" = ("a.mp3/b", "").
Proof. reflexivity. Qed.

Example splitext_backslash :
  OsPath.splitext OsPath.NT "a.mp3\b" = ("a.mp3\b", "") ∧
  OsPath.splitext OsPath.Posix "a.mp3\b" = ("a", ".mp3\b").
Proof. split; reflexivity. Qed.

Example supported_upper_case :
  is_supported_media OsPath.Posix "TRACK.WAV" = true ∧
  is_supported_media OsPath.Posix "notes.txt" = false ∧
  is_supported_media OsPath.Posix "mp3" = false.
Proof. repeat split; vm_compute; reflexivity. Qed.

Example format_3f_samples :
  format_3f 5 = "0.005" ∧ format_3f 3000 = "3.000" ∧ format_3f 61007 = "61.007".
Proof. repeat split; reflexivity. Qed.

(** The scenario of a valid [song.mp3] of three seconds with a title. *)
Example run_song :
  main Examples.env_song "song.mp3" =
    ([Call_isfile "song.mp3"; Call_is_supported_media "song.mp3";
      Print "Файл: song.mp3"; Print "Формат: mp3";
      Call_get_duration_seconds "song.mp3"; Call_from_file "song.mp3" "mp3";
      Print "Тривалість: 3.000 c";
      Call_get_metadata "song.mp3"; Call_MutagenFile "song.mp3" true;
      Print "Метадані:"; Print "  - artist: A, B"; Print "  - title: Test"],
     Ok 0).
Proof. vm_compute. reflexivity. Qed.

End Runs.

(** * The dispatcher as a whole *)

Module OutcomeFacts.

Lemma calls_app (l1 l2 : list event) : calls (l1 ++ l2) = (calls l1 ++ calls l2)%list.
Proof. apply filter_app. Qed.

Lemma calls_prints (lines : list string) : calls (map Print lines) = [].
Proof. induction lines as [|x l IH]; [done|]. simpl. exact IH. Qed.

(** The log of the duration stage. *)
Lemma get_duration_seconds_log (env : Env) (path : string) :
  (get_duration_seconds env path).1 =
    match AudioSegment env with
    | None => [Call_get_duration_seconds path]
    | Some _ => [Call_get_duration_seconds path;
                 Call_from_file path (normalized_ext (os_path env) path)]
    end.
Proof.
  rewrite MainFacts.get_duration_seconds_run.
  destruct (AudioSegment env) as [f|]; [|done]. simpl. by destruct (f path _).
Qed.

(** The log of the metadata stage is one of three. *)
Lemma get_metadata_log (env : Env) (path : string) :
  (get_metadata env path).1 = [Call_get_metadata path] ∨
  (get_metadata env path).1 = calls_easy path ∨
  (get_metadata env path).1 = calls_both path.
Proof.
  rewrite MetadataFacts.get_metadata_run.
  destruct (MutagenFile env) as [f|]; [|by left].
  destruct (f path true) as [mf|e]; [|by right; left].
  destruct ((easy_tags mf).2) as [tags_out|e]; [|by right; left].
  destruct (decide (tags_out = ∅)); [|by right; left].
  destruct (f path false); by right; right.
Qed.

End OutcomeFacts.

(** X1.  What a return value of [main] tells: 1 is returned only for a path
    that names no file, 2 only for an existing file with an unsupported
    extension, 3 only when both checks passed and the duration stage raised
    an exception of the [Exception] family, 0 only when both checks passed,
    the duration stage returned and the metadata stage returned or raised an
    exception of that family; no other value is returned. *)
Theorem main_return_value (env : Env) (path : string) (c : Z) :
  (main env path).2 = Ok c →
  (c = 1 ∧ isfile env path = false) ∨
  (c = 2 ∧ isfile env path = true ∧
   is_supported_media (os_path env) path = false) ∨
  (c = 3 ∧ isfile env path = true ∧
   is_supported_media (os_path env) path = true ∧
   ∃ e, (get_duration_seconds env path).2 = Raise e ∧
        isinstance_Exception e = true) ∨
  (c = 0 ∧ isfile env path = true ∧
   is_supported_media (os_path env) path = true ∧
   (∃ ms, (get_duration_seconds env path).2 = Ok ms) ∧
   ∀ e, (get_metadata env path).2 = Raise e → isinstance_Exception e = true).
Proof.
  destruct (isfile env path) eqn:H1.
  2: { rewrite (MainFacts.main_not_found env path H1). intros [= <-]. by left. }
  destruct (is_supported_media (os_path env) path) eqn:H2.
  2: { rewrite (MainFacts.main_unsupported env path H1 H2). intros [= <-].
       right; left. done. }
  rewrite (MainFacts.main_passed env path H1 H2).
  destruct (get_duration_seconds env path) as [l1 [ms|e]]; simpl.
  - destruct (get_metadata env path) as [l2 [md|e]]; simpl.
    + intros [= <-]. do 3 right. repeat split; [by exists ms|done].
    + destruct (isinstance_Exception e) eqn:He; simpl; [|done].
      intros [= <-]. do 3 right. repeat split; [by exists ms|].
      by intros e' [= <-].
  - destruct (isinstance_Exception e) eqn:He; simpl; [|done].
    intros [= <-]. do 2 right; left. repeat split. by exists e.
Qed.

Lemma main_return_value_witness :
  (main Examples.env_bare "song.mp3").2 = Ok 3 ∧
  isfile Examples.env_bare "song.mp3" = true ∧
  ∃ e, (get_duration_seconds Examples.env_bare "song.mp3").2 = Raise e ∧
       isinstance_Exception e = true.
Proof.
  split; [reflexivity|].
  destruct (main_return_value Examples.env_bare "song.mp3" 3 eq_refl)
    as [[H _]|[[H _]|[(_ & Hf & _ & He)|[H _]]]];
    [discriminate H|discriminate H| |discriminate H].
  split; [exact Hf|exact He].
Defined.

(** X2.  Whatever the collaborators answer, the calls [main] makes are an
    initial part of one fixed sequence: the existence check, the classifier,
    the duration stage and the decoder, the metadata stage and the simplified
    and the full view.  Nothing is called twice or out of order. *)
Theorem main_calls_in_order (env : Env) (path : string) :
  calls (main env path).1 `prefix_of` call_order env path.
Proof.
  unfold call_order.
  destruct (isfile env path) eqn:H1.
  2: { rewrite (MainFacts.main_not_found env path H1). by eexists. }
  destruct (is_supported_media (os_path env) path) eqn:H2.
  2: { rewrite (MainFacts.main_unsupported env path H1 H2). by eexists. }
  rewrite (MainFacts.main_passed env path H1 H2).
  pose proof (OutcomeFacts.get_duration_seconds_log env path) as Hd.
  pose proof (MainFacts.get_duration_seconds_run env path) as Hrun.
  pose proof (OutcomeFacts.get_metadata_log env path) as Hm.
  destruct (get_duration_seconds env path) as [l1 [ms|e]]; simpl in Hd.
  - assert (l1 = [Call_get_duration_seconds path;
                  Call_from_file path (normalized_ext (os_path env) path)]) as ->.
    { destruct (AudioSegment env) as [f|]; [done|]. by inversion Hrun. }
    destruct (get_metadata env path) as [l2 [md|e]]; simpl in Hm.
    + cbn [fst]. rewrite !OutcomeFacts.calls_app, OutcomeFacts.calls_prints.
      destruct Hm as [-> | [-> | ->]]; by eexists.
    + destruct (isinstance_Exception e); cbn [fst]; rewrite !OutcomeFacts.calls_app;
        destruct Hm as [-> | [-> | ->]]; by eexists.
  - destruct (isinstance_Exception e); cbn [fst]; rewrite ?OutcomeFacts.calls_app;
      destruct (AudioSegment env); subst l1; by eexists.
Qed.

Module LogFacts.

(** The log of [main] on a path that passes both checks: the preamble, the
    log of the duration stage and a tail.  The tail holds the call of the
    metadata stage only behind the duration line. *)
Lemma main_passed_log (env : Env) (path : string) :
  isfile env path = true →
  is_supported_media (os_path env) path = true →
  ∃ tail,
    (main env path).1 =
      (preamble env path ++ (get_duration_seconds env path).1 ++ tail)%list ∧
    ((Forall (λ ev, is_call ev = false) tail ∧
      ∃ e, (get_duration_seconds env path).2 = Raise e) ∨
     ∃ ms prints,
       (get_duration_seconds env path).2 = Ok ms ∧
       tail = (duration_line ms :: (get_metadata env path).1 ++ prints)%list ∧
       Forall (λ ev, is_call ev = false) prints).
Proof.
  intros H1 H2. rewrite (MainFacts.main_passed env path H1 H2).
  destruct (get_duration_seconds env path) as [l1 [ms|e]]; cbn [fst snd].
  - destruct (get_metadata env path) as [l2 [md|e]]; cbn [fst snd].
    + eexists. split; [reflexivity|]. right. exists ms, (map Print (render md)).
      repeat split. apply Forall_fmap, Forall_true. done.
    + destruct (isinstance_Exception e); cbn [fst].
      * eexists. split; [reflexivity|]. right. eexists ms, _.
        repeat split. by repeat constructor.
      * exists (duration_line ms :: l2). split; [done|]. right.
        exists ms, []. rewrite app_nil_r. by repeat split.
  - destruct (isinstance_Exception e); cbn [fst].
    + eexists. split; [reflexivity|]. left.
      split; [by repeat constructor|by exists e].
    + exists []. rewrite app_nil_r. split; [done|]. left.
      split; [constructor|by exists e].
Qed.

End LogFacts.

(** X3.  Whenever [main] calls the decoder, it is for the path it was given
    and with the format [mp3] or [wav], in lower case whatever the case of
    the extension, the same string it has printed on the format line. *)
Theorem decoder_gets_supported_format (env : Env) (path p f : string) :
  Call_from_file p f ∈ (main env path).1 →
  p = path ∧ f = normalized_ext (os_path env) path ∧
  (f = "mp3" ∨ f = "wav") ∧
  Print ("Формат: " ++ f) ∈ (main env path).1.
Proof.
  intros Hin.
  destruct (isfile env path) eqn:H1.
  2: { rewrite (MainFacts.main_not_found env path H1) in Hin. cbn [fst] in Hin.
       repeat (apply elem_of_cons in Hin as [Hin|Hin]; [done|]).
       by apply elem_of_nil in Hin. }
  destruct (is_supported_media (os_path env) path) eqn:H2.
  2: { rewrite (MainFacts.main_unsupported env path H1 H2) in Hin. cbn [fst] in Hin.
       repeat (apply elem_of_cons in Hin as [Hin|Hin]; [done|]).
       by apply elem_of_nil in Hin. }
  destruct (LogFacts.main_passed_log env path H1 H2) as (tail & Hlog & Htail).
  assert (p = path ∧ f = normalized_ext (os_path env) path) as [-> ->].
  { rewrite Hlog in Hin. apply elem_of_app in Hin as [Hin|Hin].
    { unfold preamble in Hin.
      repeat (apply elem_of_cons in Hin as [Hin|Hin]; [done|]).
      by apply elem_of_nil in Hin. }
    apply elem_of_app in Hin as [Hin|Hin].
    { rewrite OutcomeFacts.get_duration_seconds_log in Hin.
      destruct (AudioSegment env).
      - apply elem_of_cons in Hin as [Hin|Hin]; [done|].
        apply list_elem_of_singleton in Hin. by inversion Hin.
      - by apply list_elem_of_singleton in Hin. }
    exfalso.
    destruct Htail as [[Hpr _]|(ms & prints & _ & -> & Hpr)].
    - by apply (proj1 (Forall_forall _ _) Hpr) in Hin.
    - apply elem_of_cons in Hin as [Hin|Hin]; [done|].
      apply elem_of_app in Hin as [Hin|Hin].
      + destruct (OutcomeFacts.get_metadata_log env path) as [Hm|[Hm|Hm]];
          rewrite Hm in Hin;
          repeat (apply elem_of_cons in Hin as [Hin|Hin]; [done|]);
          by apply elem_of_nil in Hin.
      + by apply (proj1 (Forall_forall _ _) Hpr) in Hin. }
  repeat split.
  - apply bool_decide_eq_true in H2.
    by apply ClassifierFacts.elem_of_SUPPORTED_EXTS.
  - rewrite Hlog. apply elem_of_app. left. unfold preamble.
    by repeat constructor.
Qed.

Lemma decoder_gets_supported_format_witness :
  Call_from_file "TRACK.WAV" "wav" ∈ (main Examples.env_notes "TRACK.WAV").1 ∧
  "TRACK.WAV" = "TRACK.WAV" ∧
  "wav" = normalized_ext (os_path Examples.env_notes) "TRACK.WAV" ∧
  ("wav" = "mp3" ∨ "wav" = "wav") ∧
  Print ("Формат: " ++ "wav") ∈ (main Examples.env_notes "TRACK.WAV").1.
Proof.
  assert (Call_from_file "TRACK.WAV" "wav" ∈ (main Examples.env_notes "TRACK.WAV").1) as H.
  { apply (bool_decide_unpack _). vm_compute. exact I. }
  split; [exact H|].
  exact (decoder_gets_supported_format Examples.env_notes "TRACK.WAV" "TRACK.WAV" "wav" H).
Defined.

(** X4.  The metadata stage is entered only behind the duration line: if
    [get_metadata] is called at all, the duration stage has returned, its
    line has been printed, and the call is the next entry of the log. *)
Theorem metadata_stage_follows_duration_line (env : Env) (path p : string) :
  Call_get_metadata p ∈ (main env path).1 →
  p = path ∧
  ∃ ms rest,
    (get_duration_seconds env path).2 = Ok ms ∧
    (main env path).1 =
      (preamble env path ++ (get_duration_seconds env path).1 ++
       duration_line ms :: Call_get_metadata path :: rest)%list.
Proof.
  intros Hin.
  destruct (isfile env path) eqn:H1.
  2: { rewrite (MainFacts.main_not_found env path H1) in Hin. cbn [fst] in Hin.
       repeat (apply elem_of_cons in Hin as [Hin|Hin]; [done|]).
       by apply elem_of_nil in Hin. }
  destruct (is_supported_media (os_path env) path) eqn:H2.
  2: { rewrite (MainFacts.main_unsupported env path H1 H2) in Hin. cbn [fst] in Hin.
       repeat (apply elem_of_cons in Hin as [Hin|Hin]; [done|]).
       by apply elem_of_nil in Hin. }
  destruct (LogFacts.main_passed_log env path H1 H2) as (tail & Hlog & Htail).
  assert (∃ l2, (get_metadata env path).1 = Call_get_metadata path :: l2) as [l2 Hm].
  { destruct (OutcomeFacts.get_metadata_log env path) as [Hm|[Hm|Hm]];
      rewrite Hm; by eexists. }
  rewrite Hlog in Hin. apply elem_of_app in Hin as [Hin|Hin].
  { unfold preamble in Hin.
    repeat (apply elem_of_cons in Hin as [Hin|Hin]; [done|]).
    by apply elem_of_nil in Hin. }
  apply elem_of_app in Hin as [Hin|Hin].
  { rewrite OutcomeFacts.get_duration_seconds_log in Hin.
    destruct (AudioSegment env);
      repeat (apply elem_of_cons in Hin as [Hin|Hin]; [done|]);
      by apply elem_of_nil in Hin. }
  destruct Htail as [[Hpr _]|(ms & prints & Hd & -> & Hpr)].
  { by apply (proj1 (Forall_forall _ _) Hpr) in Hin. }
  assert (p = path) as ->.
  { apply elem_of_cons in Hin as [Hin|Hin]; [done|].
    apply elem_of_app in Hin as [Hin|Hin].
    - destruct (OutcomeFacts.get_metadata_log env path) as [Hm'|[Hm'|Hm']];
        rewrite Hm' in Hin;
        (apply elem_of_cons in Hin as [Hin|Hin]; [by inversion Hin|]);
        repeat (apply elem_of_cons in Hin as [Hin|Hin]; [done|]);
        by apply elem_of_nil in Hin.
    - by apply (proj1 (Forall_forall _ _) Hpr) in Hin. }
  split; [done|]. exists ms, (l2 ++ prints)%list. split; [done|].
  by rewrite Hlog, Hm.
Qed.

Lemma metadata_stage_follows_duration_line_witness :
  Call_get_metadata "song.mp3" ∈ (main Examples.env_no_mutagen "song.mp3").1 ∧
  "song.mp3" = "song.mp3" ∧
  ∃ ms rest,
    (get_duration_seconds Examples.env_no_mutagen "song.mp3").2 = Ok ms ∧
    (main Examples.env_no_mutagen "song.mp3").1 =
      (preamble Examples.env_no_mutagen "song.mp3" ++
       (get_duration_seconds Examples.env_no_mutagen "song.mp3").1 ++
       duration_line ms :: Call_get_metadata "song.mp3" :: rest)%list.
Proof.
  assert (Call_get_metadata "song.mp3" ∈ (main Examples.env_no_mutagen "song.mp3").1) as H.
  { apply (bool_decide_unpack _). vm_compute. exact I. }
  split; [exact H|].
  exact (metadata_stage_follows_duration_line Examples.env_no_mutagen "song.mp3" "song.mp3" H).
Defined.

(** * The two views *)

Module ViewFacts.

Lemma easy_tags_no_items (mf : option pyfile) :
  no_items mf → easy_tags mf = ([], Ok ∅).
Proof.
  unfold easy_tags. intros [->|(t & -> & Ht)]; [done|]. by rewrite Ht.
Qed.

Lemma full_tags_no_items (mf : option pyfile) :
  no_items mf → (full_tags mf ∅).2 = Ok ∅.
Proof.
  unfold full_tags. intros [->|(t & -> & Ht)]; [done|]. by rewrite Ht.
Qed.

End ViewFacts.

(** X5.  An exception of the decoder that is not [CouldntDecodeError] leaves
    the duration stage as it is, neither wrapped nor reworded: [main]
    prints the exception's own text and returns 3 when it belongs to the
    [Exception] family, and lets it through otherwise. *)
Theorem other_decoder_errors_pass_unwrapped (env : Env) (path : string)
    (from_file : string → string → result N) (e : exc) :
  AudioSegment env = Some from_file →
  from_file path (normalized_ext (os_path env) path) = Raise e →
  isinstance_CouldntDecodeError e = false →
  get_duration_seconds env path =
    ([Call_get_duration_seconds path;
      Call_from_file path (normalized_ext (os_path env) path)], Raise e) ∧
  (isfile env path = true →
   is_supported_media (os_path env) path = true →
   main env path =
     if isinstance_Exception e then
       ((preamble env path ++
         [Call_get_duration_seconds path;
          Call_from_file path (normalized_ext (os_path env) path);
          Print ("Помилка при обчисленні тривалості: " ++ exc_str e)])%list, Ok 3)
     else
       ((preamble env path ++
         [Call_get_duration_seconds path;
          Call_from_file path (normalized_ext (os_path env) path)])%list, Raise e)).
Proof.
  intros Hf Hr He.
  assert (get_duration_seconds env path =
            ([Call_get_duration_seconds path;
              Call_from_file path (normalized_ext (os_path env) path)], Raise e)) as Hd.
  { rewrite MainFacts.get_duration_seconds_run, Hf. simpl. by rewrite Hr, He. }
  split; [done|]. intros H1 H2.
  rewrite (MainFacts.main_passed env path H1 H2), Hd.
  by destruct (isinstance_Exception e).
Qed.

Lemma other_decoder_errors_pass_unwrapped_witness :
  get_duration_seconds Examples.env_decoder_missing "song.mp3" =
    ([Call_get_duration_seconds "song.mp3"; Call_from_file "song.mp3" "mp3"],
     Raise (Exc OtherException "[Errno 2] No such file or directory: 'ffprobe'")).
Proof.
  exact (proj1 (other_decoder_errors_pass_unwrapped Examples.env_decoder_missing
                  "song.mp3" _
                  (Exc OtherException "[Errno 2] No such file or directory: 'ffprobe'")
                  eq_refl eq_refl eq_refl)).
Defined.

(** X6.  Only [items()] of the full view is guarded.  An exception raised by
    [MutagenFile(path, easy=True)], by [items()] of the simplified view or
    by [MutagenFile(path)] leaves [get_metadata] unchanged; in the first two
    cases the full view is not tried. *)
Theorem metadata_errors_propagate (env : Env) (path : string)
    (mutagen_file : string → bool → result (option pyfile)) (e : exc) :
  MutagenFile env = Some mutagen_file →
  (mutagen_file path true = Raise e →
   get_metadata env path = (calls_easy path, Raise e)) ∧
  (∀ mf_easy t,
     mutagen_file path true = Ok mf_easy →
     truthy_tags mf_easy = Some t →
     tags_items t = Raise e →
     get_metadata env path = (calls_easy path, Raise e)) ∧
  (∀ mf_easy,
     mutagen_file path true = Ok mf_easy →
     no_items mf_easy →
     mutagen_file path false = Raise e →
     get_metadata env path = (calls_both path, Raise e)).
Proof.
  intros Hf. pose proof (MetadataFacts.get_metadata_run env path) as Hrun.
  rewrite Hf in Hrun. split; [|split].
  - intros He. by rewrite Hrun, He.
  - intros mf t Hmf Ht He. rewrite Hrun, Hmf. unfold easy_tags.
    by rewrite Ht, He.
  - intros mf Hmf Hno He. rewrite Hrun, Hmf.
    rewrite (ViewFacts.easy_tags_no_items mf Hno). simpl.
    rewrite decide_True by done. by rewrite He.
Qed.

Lemma metadata_errors_propagate_witness :
  MutagenFile Samples.env_failing_views = Some Samples.failing_views ∧
  get_metadata Samples.env_failing_views "easy.mp3" =
    (calls_easy "easy.mp3", Raise (Exc OtherException "bad header")) ∧
  get_metadata Samples.env_failing_views "items.mp3" =
    (calls_easy "items.mp3", Raise (Exc OtherException "bad header")) ∧
  get_metadata Samples.env_failing_views "full.mp3" =
    (calls_both "full.mp3", Raise (Exc OtherException "bad header")).
Proof.
  split; [reflexivity|].
  pose proof (metadata_errors_propagate Samples.env_failing_views "easy.mp3"
                _ (Exc OtherException "bad header") eq_refl) as (H1 & _ & _).
  pose proof (metadata_errors_propagate Samples.env_failing_views "items.mp3"
                _ (Exc OtherException "bad header") eq_refl) as (_ & H2 & _).
  pose proof (metadata_errors_propagate Samples.env_failing_views "full.mp3"
                _ (Exc OtherException "bad header") eq_refl) as (_ & _ & H3).
  split; [exact (H1 eq_refl)|]. split.
  - exact (H2 _ _ eq_refl eq_refl eq_refl).
  - apply (H3 None); [reflexivity|by left|reflexivity].
Defined.

(** X7.  When neither view offers an item (no file type recognised, no
    truthy [tags], or an empty [items()]), [get_metadata] has asked for both
    views and returns the empty mapping, and [main], once the duration is
    known, prints the no-metadata notice and returns 0. *)
Theorem no_items_in_either_view (env : Env) (path : string)
    (mutagen_file : string → bool → result (option pyfile))
    (mf_easy mf_full : option pyfile) :
  MutagenFile env = Some mutagen_file →
  mutagen_file path true = Ok mf_easy → no_items mf_easy →
  mutagen_file path false = Ok mf_full → no_items mf_full →
  get_metadata env path = (calls_both path, Ok ∅) ∧
  ∀ l1 ms,
    isfile env path = true →
    is_supported_media (os_path env) path = true →
    get_duration_seconds env path = (l1, Ok ms) →
    main env path =
      ((preamble env path ++ l1 ++ [duration_line ms] ++ calls_both path ++
        [Print "Метадані відсутні або не підтримуються для цього файла."])%list,
       Ok 0).
Proof.
  intros Hf He Hne Hfl Hnf.
  assert (get_metadata env path = (calls_both path, Ok ∅)) as Hmd.
  { rewrite MetadataFacts.get_metadata_run, Hf, He.
    rewrite (ViewFacts.easy_tags_no_items mf_easy Hne). simpl.
    rewrite decide_True by done. rewrite Hfl.
    by rewrite (ViewFacts.full_tags_no_items mf_full Hnf). }
  split; [done|]. intros l1 ms H1 H2 Hd.
  rewrite (MainFacts.main_passed env path H1 H2), Hd, Hmd. done.
Qed.

Lemma no_items_in_either_view_witness :
  get_metadata Samples.env_untagged "song.wav" = (calls_both "song.wav", Ok ∅) ∧
  main Samples.env_untagged "song.wav" =
    ([Call_isfile "song.wav"; Call_is_supported_media "song.wav";
      Print "Файл: song.wav"; Print "Формат: wav";
      Call_get_duration_seconds "song.wav"; Call_from_file "song.wav" "wav";
      Print "Тривалість: 1.500 c";
      Call_get_metadata "song.wav"; Call_MutagenFile "song.wav" true;
      Call_MutagenFile "song.wav" false;
      Print "Метадані відсутні або не підтримуються для цього файла."],
     Ok 0).
Proof.
  destruct (no_items_in_either_view Samples.env_untagged "song.wav" _
              (Some (PyFile None)) (Some (PyFile None))
              eq_refl eq_refl (or_introl eq_refl) eq_refl (or_introl eq_refl))
    as [Hmd Hmain].
  split; [exact Hmd|].
  exact (Hmain [Call_get_duration_seconds "song.wav"; Call_from_file "song.wav" "wav"]
           1500%N eq_refl eq_refl eq_refl).
Defined.

(** * The mapping built from a view *)

Module StoreFacts.

Lemma dom_store_items (value : pyobj → string) (items : list (string * pyobj))
    (m : gmap string string) :
  dom (store_items value items m) = list_to_set items.*1 ∪ dom m.
Proof.
  revert m. induction items as [|[k v] items IH]; intros m.
  - simpl. set_solver.
  - unfold store_items in *. simpl. rewrite IH, dom_insert_L. set_solver.
Qed.

Lemma size_store_items (value : pyobj → string) (items : list (string * pyobj))
    (m : gmap string string) :
  (size (store_items value items m) ≤ length items + size m)%nat.
Proof.
  revert m. induction items as [|[k v] items IH]; intros m; [done|].
  unfold store_items in *. simpl. etrans; [apply IH|].
  destruct (m !! k) eqn:Hk.
  - rewrite map_size_insert_Some by done. lia.
  - rewrite map_size_insert_None by done. lia.
Qed.

(** Every entry comes from an item, or was there before. *)
Lemma store_items_lookup_inv (value : pyobj → string) (items : list (string * pyobj))
    (m : gmap string string) (k s : string) :
  store_items value items m !! k = Some s →
  (∃ v, (k, v) ∈ items ∧ s = value v) ∨ m !! k = Some s.
Proof.
  revert m. induction items as [|[k' v'] items IH]; intros m H; [by right|].
  unfold store_items in *. simpl in H. apply IH in H as [(v & Hin & ->)|H].
  - left. exists v. split; [by right|done].
  - destruct (decide (k' = k)) as [->|Hne].
    + rewrite lookup_insert_eq in H. inversion H. left. exists v'. split; [by left|done].
    + rewrite lookup_insert_ne in H by done. by right.
Qed.

(** With distinct keys every item is an entry. *)
Lemma store_items_lookup_NoDup (value : pyobj → string) (items : list (string * pyobj))
    (m : gmap string string) (k : string) (v : pyobj) :
  NoDup items.*1 → (k, v) ∈ items →
  store_items value items m !! k = Some (value v).
Proof.
  intros Hnd Hin. apply list_elem_of_split in Hin as (pre & post & ->).
  apply MetadataFacts.store_items_lookup_last.
  rewrite fmap_app, fmap_cons in Hnd. apply NoDup_app in Hnd as (_ & _ & Hnd).
  by apply NoDup_cons in Hnd as [? _].
Qed.

(** What [get_metadata] returns from the view it builds its result from. *)
Lemma get_metadata_consulted (env : Env) (path : string)
    (mutagen_file : string → bool → result (option pyfile))
    (items : list (string * pyobj)) (value : pyobj → string) :
  MutagenFile env = Some mutagen_file →
  consulted mutagen_file path items value →
  (get_metadata env path).2 = Ok (store_items value items ∅).
Proof.
  intros Hf. rewrite MetadataFacts.get_metadata_run, Hf.
  intros [(mf & t & Hmf & Ht & Hitems & Hne & ->)
         |(mf & mf' & t & Hmf & Hno & Hmf' & Ht & Hitems & ->)].
  - rewrite Hmf. unfold easy_tags. rewrite Ht, Hitems. simpl.
    rewrite decide_False; [done|]. by apply MetadataFacts.store_items_nonempty.
  - rewrite Hmf, (ViewFacts.easy_tags_no_items mf Hno). simpl.
    rewrite decide_True by done. rewrite Hmf'. unfold full_tags.
    by rewrite Ht, Hitems.
Qed.

End StoreFacts.

(** X8.  The mapping [get_metadata] returns has exactly the keys of the
    items of the view it is built from, never more entries than items, and
    every entry is the value computed from an item with that key.  When the
    keys of the items are distinct there are as many entries as items and
    each item is found under its key. *)
Theorem tag_mapping_mirrors_items (env : Env) (path : string)
    (mutagen_file : string → bool → result (option pyfile))
    (items : list (string * pyobj)) (value : pyobj → string) :
  MutagenFile env = Some mutagen_file →
  consulted mutagen_file path items value →
  ∃ md,
    (get_metadata env path).2 = Ok md ∧
    dom md = list_to_set items.*1 ∧
    (size md ≤ length items)%nat ∧
    (∀ k s, md !! k = Some s → ∃ v, (k, v) ∈ items ∧ s = value v) ∧
    (∀ pre k v post,
       items = (pre ++ (k, v) :: post)%list → k ∉ post.*1 →
       md !! k = Some (value v)) ∧
    (NoDup items.*1 →
     size md = length items ∧
     ∀ k v, (k, v) ∈ items → md !! k = Some (value v)).
Proof.
  intros Hf Hc. exists (store_items value items ∅).
  split; [by apply (StoreFacts.get_metadata_consulted env path mutagen_file)|].
  split; [|split; [|split; [|split]]].
  - rewrite StoreFacts.dom_store_items. set_solver.
  - pose proof (StoreFacts.size_store_items value items ∅) as H.
    rewrite map_size_empty in H. lia.
  - intros k s H. apply StoreFacts.store_items_lookup_inv in H as [H|H]; [done|].
    by rewrite lookup_empty in H.
  - intros pre k v post -> Hk. by apply MetadataFacts.store_items_lookup_last.
  - intros Hnd. split.
    + rewrite <- size_dom, StoreFacts.dom_store_items, dom_empty_L, union_empty_r_L.
      rewrite size_list_to_set by done. by rewrite length_fmap.
    + intros k v. by apply StoreFacts.store_items_lookup_NoDup.
Qed.

Lemma tag_mapping_mirrors_items_witness :
  ∃ md,
    (get_metadata Samples.env_repeated_key "a.mp3").2 = Ok md ∧
    dom md = list_to_set ["title"; "track"; "title"] ∧
    (size md ≤ 3)%nat ∧
    md !! "title" = Some "New".
Proof.
  destruct (tag_mapping_mirrors_items Samples.env_repeated_key "a.mp3" _
              [("title", PList [Examples.pystr "Old"]);
               ("track", PObj "7" "7" None);
               ("title", PList [Examples.pystr "New"])] easy_value eq_refl)
    as (md & Hmd & Hdom & Hsize & _ & Hlast & _).
  - left. eexists _, _. repeat split; first [reflexivity | discriminate].
  - exists md. repeat split; try assumption.
    apply (Hlast [("title", PList [Examples.pystr "Old"]); ("track", PObj "7" "7" None)]
             "title" (PList [Examples.pystr "New"]) []); [reflexivity|].
    apply not_elem_of_nil.
Defined.

(** * Lower-casing and the extension *)

Module LowerFacts.
Import PyStr OsPath PyStrFacts OsPathFacts.

#[local] Arguments String.append !_ _ / : simpl nomatch.

(** The dot and the separators are not letters. *)
Lemma lower_ascii_special (c x : ascii) :
  x = "."%char ∨ x = "/"%char ∨ x = "\"%char →
  lower_ascii c = x ↔ c = x.
Proof.
  intros [-> | [-> | ->]];
    destruct c as [[] [] [] [] [] [] [] []]; vm_compute; split; congruence.
Qed.

Lemma is_sep_lower_ascii (os : flavour) (c : ascii) :
  is_sep os (lower_ascii c) = is_sep os c.
Proof. destruct os; destruct c as [[] [] [] [] [] [] [] []]; reflexivity. Qed.

Lemma is_upper_lower_ascii (c : ascii) : is_upper (lower_ascii c) = false.
Proof. destruct c as [[] [] [] [] [] [] [] []]; reflexivity. Qed.

Lemma lower_ascii_idem (c : ascii) : lower_ascii (lower_ascii c) = lower_ascii c.
Proof. destruct c as [[] [] [] [] [] [] [] []]; reflexivity. Qed.

Lemma lower_idem (s : string) : lower (lower s) = lower s.
Proof. induction s as [|c s IH]; simpl; [done|]. by rewrite lower_ascii_idem, IH. Qed.

Lemma lower_app (a b : string) : lower (a ++ b) = lower a ++ lower b.
Proof. induction a as [|c a IH]; simpl; [done|]. by rewrite IH. Qed.

Lemma lower_take (n : nat) (s : string) : lower (take n s) = take n (lower s).
Proof.
  revert n. induction s as [|c s IH]; intros [|n]; simpl; try done. by rewrite IH.
Qed.

Lemma lower_drop (n : nat) (s : string) : lower (drop n s) = drop n (lower s).
Proof. revert n. induction s as [|c s IH]; intros [|n]; simpl; done. Qed.

Lemma any_lower (P Q : ascii → bool) (s : string) :
  (∀ c, Q c = false → P (lower_ascii c) = false) →
  any Q s = false → any P (lower s) = false.
Proof.
  intros H. induction s as [|c s IH]; simpl; [done|].
  rewrite !orb_false_iff. intros [? ?]. split; [by apply H|by apply IH].
Qed.

Lemma rfind_from_lower (x : ascii) (s : string) (i acc : Z) :
  x = "."%char ∨ x = "/"%char ∨ x = "\"%char →
  rfind_from x (lower s) i acc = rfind_from x s i acc.
Proof.
  intros Hx. revert i acc. induction s as [|c s IH]; intros i acc; simpl; [done|].
  rewrite IH. f_equal.
  destruct (decide (lower_ascii c = x)) as [H|H], (decide (c = x)) as [H'|H']; try done.
  - by apply (lower_ascii_special c x Hx) in H.
  - by apply (lower_ascii_special c x Hx) in H'.
Qed.

Lemma rfind_lower (x : ascii) (s : string) :
  x = "."%char ∨ x = "/"%char ∨ x = "\"%char → rfind x (lower s) = rfind x s.
Proof. apply rfind_from_lower. Qed.

Lemma sep_index_lower (os : flavour) (p : string) :
  sep_index os (lower p) = sep_index os p.
Proof. destruct os; simpl; rewrite !rfind_lower; auto. Qed.

Lemma slice1_lower (s : string) (i : Z) : slice1 (lower s) i = lower (slice1 s i).
Proof. unfold slice1. by rewrite lower_take, lower_drop. Qed.

Lemma lower_eq_dot (s : string) :
  lower s = String "." EmptyString ↔ s = String "." EmptyString.
Proof.
  destruct s as [|c [|c' s]]; simpl; split; try done.
  - intros [= H]. f_equal. by apply (lower_ascii_special c "."); [left|].
  - by intros [= ->].
Qed.

Lemma has_name_lower (p : string) (n : nat) (i : Z) :
  has_name (lower p) "." n i = has_name p "." n i.
Proof.
  revert i. induction n as [|n IH]; intros i; simpl; [done|].
  rewrite IH, slice1_lower.
  destruct (decide (lower (slice1 p i) ≠ String "." EmptyString)) as [H|H],
           (decide (slice1 p i ≠ String "." EmptyString)) as [H'|H']; try done.
  - apply dec_stable in H'. by apply (proj2 (lower_eq_dot _)) in H'.
  - apply dec_stable in H. by apply (proj1 (lower_eq_dot _)) in H.
Qed.

(** [splitext] and [lower] commute. *)
Lemma splitext_lower (os : flavour) (p : string) :
  splitext os (lower p) = (lower (splitext os p).1, lower (splitext os p).2).
Proof.
  rewrite !splitext_eq, sep_index_lower, rfind_lower, has_name_lower by auto.
  destruct (_ && _); simpl; [|done]. by rewrite lower_take, lower_drop.
Qed.

End LowerFacts.

(** X9.  The normalised extension, which is what [main] prints on the format
    line and hands to the decoder, never holds a dot, a separator or an
    upper-case ASCII letter.  For an ASCII path it is empty, or the
    lower-cased path ends with a dot followed by it. *)
Theorem normalized_ext_shape (os : OsPath.flavour) (path : string) :
  PyStr.any (λ c, OsPath.is_dot c || OsPath.is_sep os c || is_upper c)
    (normalized_ext os path) = false ∧
  (isascii path = true →
   normalized_ext os path = EmptyString ∨
   ∃ root, PyStr.lower path = root ++ "." ++ normalized_ext os path).
Proof.
  destruct (decide ((OsPath.splitext os path).2 = EmptyString)) as [Hnone|Hsome].
  - rewrite (ClassifierFacts.normalized_ext_no_ext os path Hnone). split; [done|by left].
  - destruct (OsPathFacts.splitext_ext_inv os path Hsome) as (e & _ & He).
    rewrite (ClassifierFacts.normalized_ext_has_extension os path e He).
    destruct He as (stem & -> & _ & He). split.
    + eapply LowerFacts.any_lower; [|exact He]. intros c Hc.
      apply orb_false_iff in Hc as [Hd Hs].
      rewrite ClassifierFacts.is_dot_lower_ascii, LowerFacts.is_sep_lower_ascii, Hd, Hs.
      apply LowerFacts.is_upper_lower_ascii.
    + intros _. right. exists (PyStr.lower stem). by rewrite LowerFacts.lower_app.
Qed.

Lemma normalized_ext_shape_witness :
  isascii "Music/Song.Final.MP3" = true ∧
  normalized_ext OsPath.Posix "Music/Song.Final.MP3" = "mp3" ∧
  (normalized_ext OsPath.Posix "Music/Song.Final.MP3" = EmptyString ∨
   ∃ root, PyStr.lower "Music/Song.Final.MP3" =
             root ++ "." ++ normalized_ext OsPath.Posix "Music/Song.Final.MP3").
Proof.
  split; [reflexivity|]. split; [reflexivity|].
  exact (proj2 (normalized_ext_shape OsPath.Posix "Music/Song.Final.MP3") eq_refl).
Defined.

(** X10.  In an ASCII path the case of the letters plays no part, anywhere
    in the path: lower-casing the whole path changes neither the normalised
    extension nor the verdict of the classifier. *)
Theorem classifier_ignores_case (os : OsPath.flavour) (path : string) :
  isascii path = true →
  normalized_ext os (PyStr.lower path) = normalized_ext os path ∧
  is_supported_media os (PyStr.lower path) = is_supported_media os path.
Proof.
  intros _.
  assert (normalized_ext os (PyStr.lower path) = normalized_ext os path) as H.
  { unfold normalized_ext. rewrite LowerFacts.splitext_lower. simpl.
    by rewrite LowerFacts.lower_idem. }
  split; [done|]. unfold is_supported_media. by rewrite H.
Qed.

Lemma classifier_ignores_case_witness :
  isascii "Music/SONG.Final.Mp3" = true ∧
  PyStr.lower "Music/SONG.Final.Mp3" = "music/song.final.mp3" ∧
  normalized_ext OsPath.Posix (PyStr.lower "Music/SONG.Final.Mp3") =
    normalized_ext OsPath.Posix "Music/SONG.Final.Mp3" ∧
  is_supported_media OsPath.Posix (PyStr.lower "Music/SONG.Final.Mp3") =
    is_supported_media OsPath.Posix "Music/SONG.Final.Mp3".
Proof.
  split; [reflexivity|]. split; [reflexivity|].
  exact (classifier_ignores_case OsPath.Posix "Music/SONG.Final.Mp3" eq_refl).
Defined.

(** * The extension and the directory part *)

Module DirFacts.
Import PyStr OsPath PyStrFacts OsPathFacts.

#[local] Arguments String.append !_ _ / : simpl nomatch.

(** A directory part, a separator and a name, cut before a separator-free
    tail, are cut inside the name. *)
Lemma split_after_sep (os : flavour) (dir name a t : string) (s : ascii) :
  is_sep os s = true → any (is_sep os) t = false →
  dir ++ String s name = a ++ t →
  ∃ a', a = dir ++ String s a' ∧ name = a' ++ t.
Proof.
  intros Hs Ht. revert a. induction dir as [|d dir IH]; intros a Heq; simpl in *.
  - destruct a as [|x a]; simpl in *.
    + subst t. simpl in Ht. by rewrite Hs in Ht.
    + inversion Heq; subst. by exists a.
  - destruct a as [|x a]; simpl in *.
    + subst t. simpl in Ht. apply orb_false_iff in Ht as [_ Ht].
      rewrite any_app in Ht. simpl in Ht. rewrite Hs in Ht.
      by rewrite orb_true_r in Ht.
    + inversion Heq as [[Hx Hrest]]. destruct (IH a Hrest) as (a' & -> & ->).
      by exists a'.
Qed.

Lemma has_basename_prepend (os : flavour) (pre stem : string) :
  has_basename os stem → has_basename os (pre ++ stem).
Proof.
  intros (a & c & b & -> & Hd & Hs & Hb). exists (pre ++ a), c, b.
  by rewrite app_assoc.
Qed.

(** The second component of [splitext] is that of the part after a
    separator. *)
Lemma splitext_after_sep (os : flavour) (dir name : string) (s : ascii) :
  is_sep os s = true →
  (splitext os (dir ++ String s name)).2 = (splitext os name).2.
Proof.
  intros Hs.
  destruct (decide ((splitext os name).2 = EmptyString)) as [Hnone|Hsome].
  - rewrite Hnone.
    destruct (decide ((splitext os (dir ++ String s name)).2 = EmptyString))
      as [|Hsome]; [done|].
    exfalso. destruct (splitext_ext_inv os _ Hsome) as (e & _ & stem & Heq & Hstem & He).
    destruct Hstem as (a & c & b & -> & Hcd & Hcs & Hb).
    rewrite app_assoc in Heq. simpl in Heq.
    apply (split_after_sep os) in Heq as (a' & _ & ->); [|done|].
    + assert (a' ++ String c (b ++ String "." e) = (a' ++ String c b) ++ "." ++ e)
        as Hre by (by rewrite app_assoc).
      rewrite Hre in Hnone.
      rewrite (splitext_has_extension os (a' ++ String c b) e) in Hnone; [done| |done].
      by exists a', c, b.
    + simpl. rewrite Hcs, any_app, Hb. simpl. rewrite is_sep_dot. simpl.
      eapply ClassifierFacts.any_weaken; [|exact He]. intros x Hx.
      by apply orb_false_iff in Hx as [_ ?].
  - destruct (splitext_ext_inv os name Hsome) as (e & -> & stem & -> & Hstem & He).
    replace (dir ++ String s (stem ++ "." ++ e))
      with ((dir ++ String s stem) ++ "." ++ e) by (by rewrite app_assoc).
    rewrite (splitext_has_extension os (dir ++ String s stem) e); [done| |done].
    replace (dir ++ String s stem) with ((dir ++ String s EmptyString) ++ stem)
      by (by rewrite app_assoc).
    by apply has_basename_prepend.
Qed.

End DirFacts.

(** X11.  Only the part of a path behind its last separator counts: a
    directory part, with whatever dots it holds, changes neither the
    normalised extension nor the verdict of the classifier. *)
Theorem classifier_ignores_directory (os : OsPath.flavour) (dir name : string)
    (s : ascii) :
  OsPath.is_sep os s = true →
  normalized_ext os (dir ++ String s name) = normalized_ext os name ∧
  is_supported_media os (dir ++ String s name) = is_supported_media os name.
Proof.
  intros Hs.
  assert (normalized_ext os (dir ++ String s name) = normalized_ext os name) as H.
  { unfold normalized_ext. by rewrite (DirFacts.splitext_after_sep os dir name s Hs). }
  split; [done|]. unfold is_supported_media. by rewrite H.
Qed.

Lemma classifier_ignores_directory_witness :
  OsPath.is_sep OsPath.NT "\" = true ∧
  normalized_ext OsPath.NT ("C:\My.Music" ++ String "\" "Track.MP3") =
    normalized_ext OsPath.NT "Track.MP3" ∧
  is_supported_media OsPath.NT ("C:\My.Music" ++ String "\" "Track.MP3") =
    is_supported_media OsPath.NT "Track.MP3".
Proof.
  split; [reflexivity|].
  exact (classifier_ignores_directory OsPath.NT "C:\My.Music" "Track.MP3" "\" eq_refl).
Defined.

(** * The duration line determines the duration *)

Module FormatInjFacts.

#[local] Arguments String.append !_ _ / : simpl nomatch.

Lemma app_inj_length (a a' b b' : string) :
  a ++ b = a' ++ b' → String.length b = String.length b' → a = a' ∧ b = b'.
Proof.
  revert a'. induction a as [|x a IH]; intros [|x' a'] H Hl; simpl in *.
  - done.
  - subst b. simpl in Hl. rewrite PyStrFacts.length_app in Hl. lia.
  - subst b'. simpl in Hl. rewrite PyStrFacts.length_app in Hl. lia.
  - inversion H as [[Hx Ht]]. destruct (IH a' Ht Hl) as [-> ->]. done.
Qed.

Lemma string_of_N_inj (a b : N) :
  NilZero.string_of_uint (N.to_uint a) = NilZero.string_of_uint (N.to_uint b) → a = b.
Proof.
  intros H.
  assert (∀ n, NilZero.uint_of_string (NilZero.string_of_uint (N.to_uint n)) =
               Some (N.to_uint n)) as Hu.
  { intros n. apply NilZero.usu. destruct n as [|p]; [done|].
    apply DecimalPos.Unsigned.to_uint_nonnil. }
  assert (Some (N.to_uint a) = Some (N.to_uint b)) as [= Hab].
  { by rewrite <- !Hu, H. }
  by rewrite <- (DecimalN.Unsigned.of_to a), <- (DecimalN.Unsigned.of_to b), Hab.
Qed.

Lemma digit_char_inj (d d' : N) :
  (d < 10)%N → (d' < 10)%N → digit_char d = digit_char d' → d = d'.
Proof.
  intros Hd Hd' H. unfold digit_char in H.
  apply (f_equal N_of_ascii) in H.
  rewrite !N_ascii_embedding in H by lia. lia.
Qed.

End FormatInjFacts.

(** X12.  Below [2^52] milliseconds, where [format_3f] gives the digits the
    code prints, the duration line determines the length: two different
    lengths are never printed alike. *)
Theorem format_3f_injective (ms ms' : N) :
  (ms < 2 ^ 52)%N → (ms' < 2 ^ 52)%N → ms ≠ ms' →
  format_3f ms ≠ format_3f ms'.
Proof.
  intros _ _ Hne H. apply Hne.
  destruct (FormatFacts.format_3f_shape ms) as (d1 & d2 & d3 & (B1 & B2 & B3) & Hms & E).
  destruct (FormatFacts.format_3f_shape ms') as (d1' & d2' & d3' & (B1' & B2' & B3') & Hms' & E').
  rewrite E, E' in H.
  apply FormatInjFacts.app_inj_length in H as [Hw Hd]; [|done].
  apply FormatInjFacts.string_of_N_inj in Hw.
  inversion Hd as [[H1 H2 H3]].
  apply FormatInjFacts.digit_char_inj in H1; [|done..].
  apply FormatInjFacts.digit_char_inj in H2; [|done..].
  apply FormatInjFacts.digit_char_inj in H3; [|done..].
  subst. lia.
Qed.

Lemma format_3f_injective_witness :
  (2999 < 2 ^ 52)%N ∧ (3000 < 2 ^ 52)%N ∧ (2999 ≠ 3000)%N ∧
  format_3f 2999 = "2.999" ∧ format_3f 3000 = "3.000" ∧
  format_3f 2999 ≠ format_3f 3000.
Proof.
  assert (2999 < 2 ^ 52)%N as H1 by reflexivity.
  assert (3000 < 2 ^ 52)%N as H2 by reflexivity.
  assert (2999 ≠ 3000)%N as H3 by discriminate.
  repeat split; try assumption.
  exact (format_3f_injective 2999 3000 H1 H2 H3).
Defined.
